(** * Xpring-JS: the payment submission pipeline and its network backends

    A shallow embedding of
    - the legacy [XpringClient] (getBalance, send) and the first
      [GRPCNetworkClient],
    - [FakeLegacyNetworkClient] and its canned responses,
    - [LegacyGRPCNetworkClient],
    - [DefaultXpringClient],
    followed by the properties of the specification that concern them.

    A promise is modelled by the way it settles.  Code that awaits promises
    is written in a monad that threads the state of the remote backend and
    the list of calls made so far, and that stops at the first rejection,
    as a chain of [then] does. *)

From Stdlib Require Import String List ZArith Bool Lia.
From ExtLib Require Import Structures.Monad.
Import ListNotations.
Import MonadNotation.
Local Open Scope string_scope.
Local Open Scope monad_scope.

(** ** JavaScript values *)

(** [new Error(message)]. *)
Record JsError : Type := mkError { message : string }.

(** A reference that may be [null] or [undefined]. *)
Inductive Nullable (A : Type) : Type :=
| Null
| Undefined
| Value (a : A).
Arguments Null {A}.
Arguments Undefined {A}.
Arguments Value {A} a.

(** [v == null] and [v != null]: loose comparison, true of [null] and of
    [undefined]. *)
Definition looseEqNull {A} (v : Nullable A) : bool :=
  match v with Value _ => false | _ => true end.
Definition looseNeqNull {A} (v : Nullable A) : bool := negb (looseEqNull v).

(** [v === null] and [v !== null]: strict comparison, true of [null]
    only. *)
Definition strictEqNull {A} (v : Nullable A) : bool :=
  match v with Null => true | _ => false end.
Definition strictNeqNull {A} (v : Nullable A) : bool := negb (strictEqNull v).

(** A value whose declaration is not in these sources and which the code
    tests for truthiness.  A number is one read from an integer field of a
    message. *)
Inductive JsValue : Type :=
| JsUndefined
| JsNull
| JsBoolean (b : bool)
| JsNumber (z : Z)
| JsString (s : string)
| JsBigInt (z : Z)
| JsObject (fields : list (string * Z)).

(** ToBoolean. *)
Definition toBoolean (v : JsValue) : bool :=
  match v with
  | JsUndefined | JsNull => false
  | JsBoolean b => b
  | JsNumber z | JsBigInt z => negb (z =? 0)%Z
  | JsString s => negb (s =? "")
  | JsObject _ => true
  end.

(** [haystack] has [needle] as a contiguous part. *)
Definition contains (haystack needle : string) : Prop :=
  exists before after, haystack = before ++ needle ++ after.

(** ** Promises *)

(** What a promise is rejected with: any value, an [Error] in all the
    code below but for the gRPC callbacks, which pass on what they get. *)
Definition Reason : Type := Nullable JsError.

Inductive Outcome (A : Type) : Type :=
| Resolved (a : A)
| Rejected (r : Reason).
Arguments Resolved {A} a.
Arguments Rejected {A} r.

Definition isRejected {A} (o : Outcome A) : bool :=
  match o with Rejected _ => true | Resolved _ => false end.

Section PromiseMonad.
(** [S]: the state behind the network client (the remote ledger and the
    connection).  [C]: the calls that are recorded. *)
Context {S C : Type}.

Record World : Type := mkWorld { backend : S; calls : list C }.

Definition Promise (A : Type) : Type := World -> World * Outcome A.

(** [Promise.resolve(a)], and [return a] in an async function. *)
Definition resolve {A} (a : A) : Promise A := fun w => (w, Resolved a).

(** [Promise.reject(r)]. *)
Definition reject {A} (r : Reason) : Promise A := fun w => (w, Rejected r).

(** [Promise.reject(new Error(msg))], and [throw new Error(msg)] in an
    async function. *)
Definition rejectError {A} (msg : string) : Promise A :=
    reject (Value (mkError msg)).

(** [p.then(f)], and [x = await p; f(x)] in an async function: a
    rejection of [p] skips [f] and is the rejection of the whole. *)
Definition andThen {A B} (p : Promise A) (f : A -> Promise B) : Promise B :=
    fun w =>
      match p w with
      | (w', Resolved a) => f a w'
      | (w', Rejected r) => (w', Rejected r)
      end.

#[export] Instance Monad_Promise : Monad Promise :=
    {| ret := @resolve; bind := @andThen |}.

(** Record a call. *)
Definition record (c : C) (w : World) : World :=
    mkWorld (backend w) (calls w ++ [c]).

(** A call of an operation [op] of the network client: the backend moves
    on, and the call is recorded with the way it settled. *)
Definition rpc {Req Resp} (tag : Req -> Outcome Resp -> C)
             (op : Req -> S -> S * Outcome Resp) (req : Req) : Promise Resp :=
    fun w =>
      let (s', o) := op req (backend w) in
      (mkWorld s' (calls w ++ [tag req o]), o).
(** A promise that neither reads nor rewrites the calls recorded before it:
    run after any calls, it does what it does when run first, from the same
    state of the backend, and adds its calls to those. *)
Definition appendsCalls {A} (p : Promise A) : Prop :=
  forall w,
    p w
    = let alone := p (mkWorld (backend w) []) in
      (mkWorld (backend (fst alone)) (calls w ++ calls (fst alone)),
       snd alone).
End PromiseMonad.
Arguments World : clear implicits.
Arguments Promise : clear implicits.

(** ** The legacy protocol *)

Module Legacy.

(** *** Messages (generated classes, seen through their getters) *)

Module XRPAmount.
Record t : Type := mk { getDrops : string }.
(** [a = new XRPAmount(); a.setDrops(d)]. *)
Definition ofDrops (d : string) : t := mk d.
End XRPAmount.

Module AccountInfo.
Record t : Type :=
      mk { getBalance : option XRPAmount.t; getSequence : option Z }.
(** [new AccountInfo()].  The generated class is not in these sources:
    what [getSequence()] reads on a message whose sequence was never
    set is the parameter [unsetSequence].  The getter of a number field
    reads the default of the field, 0, so the class is the instance
    [Some 0]; [None] is a getter that reads [undefined]. *)
Definition new (unsetSequence : option Z) : t := mk None unsetSequence.
Definition setBalance (b : XRPAmount.t) (a : t) : t :=
      mk (Some b) (getSequence a).
Definition setSequence (n : Z) (a : t) : t := mk (getBalance a) (Some n).
End AccountInfo.

Module Fee.
Record t : Type := mk { getAmount : option XRPAmount.t }.
Definition new : t := mk None.
Definition setAmount (a : XRPAmount.t) (f : t) : t := mk (Some a).
End Fee.

Module SubmitSignedTransactionResponse.
Record t : Type :=
      mk { getEngineResult : string;
           getEngineResultCode : Z;
           getEngineResultMessage : string;
           getTransactionBlob : string }.
End SubmitSignedTransactionResponse.

Module LedgerSequence.
Record t : Type := mk { getIndex : Z }.
End LedgerSequence.

Module TransactionStatus.
Record t : Type :=
      mk { getValidated : bool; getTransactionStatusCode : string }.
End TransactionStatus.

Module Wallet.
Record t : Type :=
      mk { getPublicKey : string; getPrivateKey : string; getAddress : string }.
End Wallet.

Module Payment.
Record t : Type := mk { getXrpAmount : XRPAmount.t; getDestination : string }.
End Payment.

Module Transaction.
Record t : Type :=
      mk { getAccount : string;
           getFee : XRPAmount.t;
           getSequence : Z;
           getPayment : Payment.t }.
End Transaction.

Module SignedTransaction.
Record t : Type :=
      mk { getTransaction : Transaction.t;
           getTransactionSignatureHex : string;
           getPublicKeyHex : string }.
End SignedTransaction.

Module GetAccountInfoRequest.
Record t : Type := mk { getAddress : string }.
End GetAccountInfoRequest.

Module GetFeeRequest.
Record t : Type := mk { }.
End GetFeeRequest.

Module SubmitSignedTransactionRequest.
Record t : Type := mk { getSignedTransaction : SignedTransaction.t }.
End SubmitSignedTransactionRequest.

Module GetLatestValidatedLedgerSequenceRequest.
Record t : Type := mk { }.
End GetLatestValidatedLedgerSequenceRequest.

Module GetTransactionStatusRequest.
Record t : Type := mk { getTransactionHash : string }.
End GetTransactionStatusRequest.

(** *** The signer *)

(** [Signer.signTransaction(transaction, wallet)] returns a signed
    transaction or [undefined], or throws. *)
Inductive SignResult : Type :=
  | Returns (signed : option SignedTransaction.t)
  | Throws (e : JsError).

Definition Signer : Type := Transaction.t -> Wallet.t -> SignResult.

(** *** Recorded calls *)

Inductive Call : Type :=
  | CallGetAccountInfo (req : GetAccountInfoRequest.t)
                       (res : Outcome AccountInfo.t)
  | CallGetFee (req : GetFeeRequest.t) (res : Outcome Fee.t)
  | CallSubmitSignedTransaction (req : SubmitSignedTransactionRequest.t)
                                (res : Outcome SubmitSignedTransactionResponse.t)
  | CallGetLatestValidatedLedgerSequence
      (req : GetLatestValidatedLedgerSequenceRequest.t)
      (res : Outcome LedgerSequence.t)
  | CallGetTransactionStatus (req : GetTransactionStatusRequest.t)
                             (res : Outcome TransactionStatus.t)
  | CallSignTransaction (transaction : Transaction.t) (wallet : Wallet.t)
                        (res : SignResult).

(** A call of the network client, as opposed to one of the signer. *)
Definition isNetworkCall (c : Call) : bool :=
    match c with CallSignTransaction _ _ _ => false | _ => true end.

(** *** The network client interfaces *)

(** [NetworkClient]: the operations [XpringClient] uses. *)
Record NetworkClient (S : Type) : Type :=
    { getAccountInfo :
        GetAccountInfoRequest.t -> S -> S * Outcome AccountInfo.t;
      getFee : GetFeeRequest.t -> S -> S * Outcome Fee.t;
      submitSignedTransaction :
        SubmitSignedTransactionRequest.t -> S ->
        S * Outcome SubmitSignedTransactionResponse.t }.
Arguments getAccountInfo {S} _ _ _.
Arguments getFee {S} _ _ _.
Arguments submitSignedTransaction {S} _ _ _.

(** [LegacyNetworkClient]: the same and the two status queries. *)
Record LegacyNetworkClient (S : Type) : Type :=
    { asNetworkClient :> NetworkClient S;
      getLatestValidatedLedgerSequence :
        GetLatestValidatedLedgerSequenceRequest.t -> S ->
        S * Outcome LedgerSequence.t;
      getTransactionStatus :
        GetTransactionStatusRequest.t -> S -> S * Outcome TransactionStatus.t }.
Arguments asNetworkClient {S} _.
Arguments getLatestValidatedLedgerSequence {S} _ _ _.
Arguments getTransactionStatus {S} _ _ _.

(** *** FakeLegacyNetworkClient *)

(** [type Response<T> = T | Error]. *)
Inductive Response (T : Type) : Type :=
| Success (t : T)
| Failure (e : JsError).
Arguments Success {T} t.
Arguments Failure {T} e.

Module FakeLegacyNetworkClientResponses.

Record t : Type :=
  mk { getAccountInfoResponse : Response AccountInfo.t;
       getFeeResponse : Response Fee.t;
       submitSignedTransactionResponse :
         Response SubmitSignedTransactionResponse.t;
       getLatestValidatedLedgerSequenceResponse : Response LedgerSequence.t;
       getTransactionStatusResponse : Response TransactionStatus.t }.

Definition defaultError : JsError := mkError "fake network client failure".

Definition defaultAccountInfoResponse (unsetSequence : option Z)
  : AccountInfo.t :=
  let balance := XRPAmount.ofDrops "4000" in
  let accountInfo := AccountInfo.new unsetSequence in
  AccountInfo.setBalance balance accountInfo.

Definition defaultFeeResponse : Fee.t :=
  let amount := XRPAmount.ofDrops "10" in
  let fee := Fee.new in
  Fee.setAmount amount fee.

Definition defaultSubmitSignedTransactionResponse
  : SubmitSignedTransactionResponse.t :=
  let defaultEngineResultCode := 0%Z in
  SubmitSignedTransactionResponse.mk
    "tesSUCCESS"
    defaultEngineResultCode
    "The transaction was applied. Only final in a validated ledger."
    "DEADBEEF".

Definition defaultLedgerSequenceResponse : LedgerSequence.t :=
  let defaultLedgerSequenceIndex := 12%Z in
  LedgerSequence.mk defaultLedgerSequenceIndex.

Definition defaultTransactionStatusResponse : TransactionStatus.t :=
  TransactionStatus.mk true "tesSUCCESS".

(** The constructor: an argument left out takes its default. *)
Definition new (unsetSequence : option Z)
    (getAccountInfoResponse : option (Response AccountInfo.t))
    (getFeeResponse : option (Response Fee.t))
    (submitSignedTransactionResponse :
       option (Response SubmitSignedTransactionResponse.t))
    (getLatestValidatedLedgerSequenceResponse :
       option (Response LedgerSequence.t))
    (getTransactionStatusResponse : option (Response TransactionStatus.t))
  : t :=
  let orDefault {T} (given : option (Response T)) (dflt : T) :=
    match given with Some r => r | None => Success dflt end in
  mk (orDefault getAccountInfoResponse
        (defaultAccountInfoResponse unsetSequence))
     (orDefault getFeeResponse defaultFeeResponse)
     (orDefault submitSignedTransactionResponse
        defaultSubmitSignedTransactionResponse)
     (orDefault getLatestValidatedLedgerSequenceResponse
        defaultLedgerSequenceResponse)
     (orDefault getTransactionStatusResponse
        defaultTransactionStatusResponse).

(** Responses that will always succeed. *)
Definition defaultSuccessfulResponses (unsetSequence : option Z) : t :=
  new unsetSequence None None None None None.


End FakeLegacyNetworkClientResponses.

Module FakeLegacyNetworkClient.
Import FakeLegacyNetworkClientResponses.

Record t : Type := mk { responses : FakeLegacyNetworkClientResponses.t }.

Section Operations.
Context {S : Type}.
Variable this : t.

Definition getAccountInfo (_accountInfoRequest : GetAccountInfoRequest.t)
    (s : S) : S * Outcome AccountInfo.t :=
  let accountInfoResponse := getAccountInfoResponse (responses this) in
  match accountInfoResponse with
  | Failure e => (s, Rejected (Value e))
  | Success r => (s, Resolved r)
  end.

Definition getFee (_feeRequest : GetFeeRequest.t) (s : S)
  : S * Outcome Fee.t :=
  let feeResponse := getFeeResponse (responses this) in
  match feeResponse with
  | Failure e => (s, Rejected (Value e))
  | Success r => (s, Resolved r)
  end.

Definition submitSignedTransaction
    (_submitSignedTransactionRequest : SubmitSignedTransactionRequest.t)
    (s : S) : S * Outcome SubmitSignedTransactionResponse.t :=
  let submitSignedTransactionResponse :=
    submitSignedTransactionResponse (responses this) in
  match submitSignedTransactionResponse with
  | Failure e => (s, Rejected (Value e))
  | Success r => (s, Resolved r)
  end.

Definition getLatestValidatedLedgerSequence
    (_getLatestValidatedLedgerSequenceRequest :
       GetLatestValidatedLedgerSequenceRequest.t)
    (s : S) : S * Outcome LedgerSequence.t :=
  let ledgerSequenceResponse :=
    getLatestValidatedLedgerSequenceResponse (responses this) in
  match ledgerSequenceResponse with
  | Failure e => (s, Rejected (Value e))
  | Success r => (s, Resolved r)
  end.

Definition getTransactionStatus
    (_getTransactionStatusRequest : GetTransactionStatusRequest.t)
    (s : S) : S * Outcome TransactionStatus.t :=
  let transactionStatusResponse :=
    getTransactionStatusResponse (responses this) in
  match transactionStatusResponse with
  | Failure e => (s, Rejected (Value e))
  | Success r => (s, Resolved r)
  end.

(** [FakeLegacyNetworkClient implements LegacyNetworkClient]. *)
Definition client : LegacyNetworkClient S :=
  {| asNetworkClient :=
       {| Legacy.getAccountInfo := getAccountInfo;
          Legacy.getFee := getFee;
          Legacy.submitSignedTransaction := submitSignedTransaction |};
     Legacy.getLatestValidatedLedgerSequence :=
       getLatestValidatedLedgerSequence;
     Legacy.getTransactionStatus := getTransactionStatus |}.

End Operations.
End FakeLegacyNetworkClient.

(** *** XpringClient *)

Module XpringClientErrorMessages.
Definition malformedResponse : string := "Malformed Response.".
Definition signingFailure : string := "Unable to sign the transaction".
End XpringClientErrorMessages.

Module XpringClient.
Import XpringClientErrorMessages.

Section Operations.
Context {S : Type}.
(** The field [networkClient], and the imported [Signer.signTransaction]. *)
Variable networkClient : NetworkClient S.
Variable signTransaction : Signer.

Definition getAccountInfo (address : string)
  : Promise S Call AccountInfo.t :=
  let getAccountInfoRequest := GetAccountInfoRequest.mk address in
  rpc CallGetAccountInfo (Legacy.getAccountInfo networkClient)
      getAccountInfoRequest.

Definition getFee : Promise S Call XRPAmount.t :=
  let getFeeRequest := GetFeeRequest.mk in
  fee <- rpc CallGetFee (Legacy.getFee networkClient) getFeeRequest ;;
  let feeAmount := Fee.getAmount fee in
  match feeAmount with
  | None => rejectError malformedResponse
  | Some feeAmount => ret feeAmount
  end.

Definition getBalance (address : string) : Promise S Call XRPAmount.t :=
  accountInfo <- getAccountInfo address ;;
  let balance := AccountInfo.getBalance accountInfo in
  match balance with
  | None => rejectError malformedResponse
  | Some balance => ret balance
  end.

Definition send (sender : Wallet.t) (amount : XRPAmount.t)
    (destination : string)
  : Promise S Call SubmitSignedTransactionResponse.t :=
  fee <- getFee ;;
  accountInfo <- getAccountInfo (Wallet.getAddress sender) ;;
  match AccountInfo.getSequence accountInfo with
  | None => rejectError malformedResponse
  | Some sequence =>
      let payment := Payment.mk amount destination in
      let transaction :=
        Transaction.mk (Wallet.getAddress sender) fee sequence payment in
      fun w =>
        let signed := signTransaction transaction sender in
        let w := record (CallSignTransaction transaction sender signed) w in
        match signed with
        | Throws signingError =>
            let signingErrorMessage :=
              signingFailure ++ ". " ++ message signingError in
            rejectError signingErrorMessage w
        | Returns None => rejectError signingFailure w
        | Returns (Some signedTransaction) =>
            let submitSignedTransactionRequest :=
              SubmitSignedTransactionRequest.mk signedTransaction in
            rpc CallSubmitSignedTransaction
                (Legacy.submitSignedTransaction networkClient)
                submitSignedTransactionRequest w
        end
  end.

End Operations.
End XpringClient.

(** *** The steps of a send, read off the recorded calls *)

Module SendPipeline.
Import XpringClientErrorMessages.

(** The rejection with the malformed-response error. *)
Definition malformed {A} : Outcome A :=
  Rejected (Value (mkError malformedResponse)).


Definition rejectionOf {A} (o : Outcome A) : option Reason :=
  match o with Rejected r => Some r | Resolved _ => None end.

(** What the step of [send] that made the call fails with, when it fails:
    the rejection of the backend, a response without the field that is read
    from it, a signer that throws or returns nothing. *)
Definition stepFailure (c : Call) : option Reason :=
  match c with
  | CallGetFee _ (Resolved fee) =>
      match Fee.getAmount fee with
      | None => Some (Value (mkError malformedResponse))
      | Some _ => None
      end
  | CallGetAccountInfo _ (Resolved accountInfo) =>
      match AccountInfo.getSequence accountInfo with
      | None => Some (Value (mkError malformedResponse))
      | Some _ => None
      end
  | CallSignTransaction _ _ (Throws signingError) =>
      Some (Value (mkError (signingFailure ++ ". " ++ message signingError)))
  | CallSignTransaction _ _ (Returns None) =>
      Some (Value (mkError signingFailure))
  | CallSignTransaction _ _ (Returns (Some _)) => None
  | CallGetFee _ (Rejected r)
  | CallGetAccountInfo _ (Rejected r)
  | CallSubmitSignedTransaction _ (Rejected r) => Some r
  | CallSubmitSignedTransaction _ (Resolved _) => None
  | CallGetLatestValidatedLedgerSequence _ res => rejectionOf res
  | CallGetTransactionStatus _ res => rejectionOf res
  end.

(** The transactions handed to the signer. *)
Definition transactionsSigned (cs : list Call) : list Transaction.t :=
  flat_map (fun c => match c with
                     | CallSignTransaction transaction _ _ => [transaction]
                     | _ => []
                     end) cs.

(** The request that [send] makes for the account of the sender. *)
Definition requestFor (sender : Wallet.t) : GetAccountInfoRequest.t :=
  GetAccountInfoRequest.mk (Wallet.getAddress sender).

(** The transaction that [send] assembles. *)
Definition assemble (sender : Wallet.t) (amount fee : XRPAmount.t)
    (sequence : Z) (destination : string) : Transaction.t :=
  Transaction.mk (Wallet.getAddress sender) fee sequence
    (Payment.mk amount destination).

(** The runs of one [send] from a backend in state [s0]: the calls made,
    the state the backend is left in, and the way the promise settles.  One
    case for each way out of the function. *)
Section Runs.
Context {S : Type}.
Variable networkClient : NetworkClient S.
Variable signTransaction : Signer.
Variables (sender : Wallet.t) (amount : XRPAmount.t) (destination : string).

Inductive SendRun (s0 : S)
  : list Call -> S -> Outcome SubmitSignedTransactionResponse.t -> Prop :=
| FeeRejected s1 r :
    getFee networkClient GetFeeRequest.mk s0 = (s1, Rejected r) ->
    SendRun s0 [CallGetFee GetFeeRequest.mk (Rejected r)] s1 (Rejected r)
| FeeMalformed s1 fee :
    getFee networkClient GetFeeRequest.mk s0 = (s1, Resolved fee) ->
    Fee.getAmount fee = None ->
    SendRun s0 [CallGetFee GetFeeRequest.mk (Resolved fee)] s1 malformed
| AccountRejected s1 fee feeAmount s2 r :
    getFee networkClient GetFeeRequest.mk s0 = (s1, Resolved fee) ->
    Fee.getAmount fee = Some feeAmount ->
    getAccountInfo networkClient (requestFor sender) s1 = (s2, Rejected r) ->
    SendRun s0
      [CallGetFee GetFeeRequest.mk (Resolved fee);
       CallGetAccountInfo (requestFor sender) (Rejected r)]
      s2 (Rejected r)
| AccountMalformed s1 fee feeAmount s2 accountInfo :
    getFee networkClient GetFeeRequest.mk s0 = (s1, Resolved fee) ->
    Fee.getAmount fee = Some feeAmount ->
    getAccountInfo networkClient (requestFor sender) s1
    = (s2, Resolved accountInfo) ->
    AccountInfo.getSequence accountInfo = None ->
    SendRun s0
      [CallGetFee GetFeeRequest.mk (Resolved fee);
       CallGetAccountInfo (requestFor sender) (Resolved accountInfo)]
      s2 malformed
| NotSigned s1 fee feeAmount s2 accountInfo sequence signed reason :
    getFee networkClient GetFeeRequest.mk s0 = (s1, Resolved fee) ->
    Fee.getAmount fee = Some feeAmount ->
    getAccountInfo networkClient (requestFor sender) s1
    = (s2, Resolved accountInfo) ->
    AccountInfo.getSequence accountInfo = Some sequence ->
    let transaction :=
      assemble sender amount feeAmount sequence destination in
    signTransaction transaction sender = signed ->
    stepFailure (CallSignTransaction transaction sender signed)
    = Some reason ->
    SendRun s0
      [CallGetFee GetFeeRequest.mk (Resolved fee);
       CallGetAccountInfo (requestFor sender) (Resolved accountInfo);
       CallSignTransaction transaction sender signed]
      s2 (Rejected reason)
| Submitted s1 fee feeAmount s2 accountInfo sequence signedTransaction s3 o :
    getFee networkClient GetFeeRequest.mk s0 = (s1, Resolved fee) ->
    Fee.getAmount fee = Some feeAmount ->
    getAccountInfo networkClient (requestFor sender) s1
    = (s2, Resolved accountInfo) ->
    AccountInfo.getSequence accountInfo = Some sequence ->
    let transaction :=
      assemble sender amount feeAmount sequence destination in
    signTransaction transaction sender = Returns (Some signedTransaction) ->
    let request := SubmitSignedTransactionRequest.mk signedTransaction in
    submitSignedTransaction networkClient request s2 = (s3, o) ->
    SendRun s0
      [CallGetFee GetFeeRequest.mk (Resolved fee);
       CallGetAccountInfo (requestFor sender) (Resolved accountInfo);
       CallSignTransaction transaction sender
         (Returns (Some signedTransaction));
       CallSubmitSignedTransaction request o]
      s3 o.

End Runs.

End SendPipeline.

End Legacy.

(** ** The gRPC network clients *)

Module Grpc.

(** The promise built by [new Promise((resolve, reject) => ...)]: pending
    until [resolve] or [reject] is called; a later call changes nothing. *)
Inductive Settlement (A : Type) : Type :=
| Pending
| Fulfilled (response : Nullable A)
| Failed (error : Reason).
Arguments Pending {A}.
Arguments Fulfilled {A} response.
Arguments Failed {A} error.

Definition resolveWith {A} (response : Nullable A) (p : Settlement A)
  : Settlement A :=
  match p with Pending => Fulfilled response | _ => p end.

Definition rejectWith {A} (error : Reason) (p : Settlement A)
  : Settlement A :=
  match p with Pending => Failed error | _ => p end.

(** The arguments [(error, response)] of one invocation of the callback
    handed to the generated transport client. *)
Definition CallbackArgs (A : Type) : Type := (Nullable JsError * Nullable A)%type.

(** [if (error != null || response == null) { reject(error); return; }
    resolve(response);] *)
Definition callbackLoose {A} (args : CallbackArgs A) (p : Settlement A)
  : Settlement A :=
  let (error, response) := args in
  if looseNeqNull error || looseEqNull response
  then rejectWith error p
  else resolveWith response p.

(** [if (error !== null || response === null) { reject(error); return; }
    resolve(response);] *)
Definition callbackStrict {A} (args : CallbackArgs A) (p : Settlement A)
  : Settlement A :=
  let (error, response) := args in
  if strictNeqNull error || strictEqNull response
  then rejectWith error p
  else resolveWith response p.

(** The promise after the transport has invoked [callback] with each of
    [invocations], in order. *)
Definition newPromise {A}
    (callback : CallbackArgs A -> Settlement A -> Settlement A)
    (invocations : list (CallbackArgs A)) : Settlement A :=
  fold_left (fun p args => callback args p) invocations Pending.

(** A unary call of a generated transport client: the invocations of the
    callback that the request leads to. *)
Definition UnaryCall (Req Resp : Type) : Type := Req -> list (CallbackArgs Resp).

(** The contract of an operation, read on the invocations of its callback
    and on its promise: pending when the transport never called back;
    resolved with the response of the first invocation, which is present
    and comes without an error; or rejected with the error of the first
    invocation, which is an error, or comes without a response. *)
Definition settledLoosely {A} (invocations : list (CallbackArgs A))
    (p : Settlement A) : Prop :=
  match p with
  | Pending => invocations = []
  | Fulfilled v =>
      exists error r rest,
        invocations = (error, Value r) :: rest
        /\ looseEqNull error = true /\ v = Value r
  | Failed e =>
      exists response rest,
        invocations = (e, response) :: rest
        /\ (looseNeqNull e = true \/ looseEqNull response = true)
  end.

(** What the strict comparisons make of the invocations: pending when the
    transport never called back; resolved with whatever came first with a
    [null] error, unless that is [null]; rejected with the error that came
    first when it is not [null], or when the response is [null]. *)
Definition settledStrictly {A} (invocations : list (CallbackArgs A))
    (p : Settlement A) : Prop :=
  match p with
  | Pending => invocations = []
  | Fulfilled v =>
      exists rest, invocations = (Null, v) :: rest /\ v <> Null
  | Failed e =>
      exists response rest,
        invocations = (e, response) :: rest
        /\ (e <> Null \/ response = Null)
  end.

(** An invocation that says [null], not [undefined], for what is absent. *)
Definition saysNull {A} (args : CallbackArgs A) : Prop :=
  fst args <> Undefined /\ snd args <> Undefined.

Module XRPLedgerAPIClient.
Import Legacy.
Record t : Type :=
  mk { getAccountInfo : UnaryCall GetAccountInfoRequest.t AccountInfo.t;
       getFee : UnaryCall GetFeeRequest.t Fee.t;
       submitSignedTransaction :
         UnaryCall SubmitSignedTransactionRequest.t
                   SubmitSignedTransactionResponse.t;
       getLatestValidatedLedgerSequence :
         UnaryCall GetLatestValidatedLedgerSequenceRequest.t LedgerSequence.t;
       getTransactionStatus :
         UnaryCall GetTransactionStatusRequest.t TransactionStatus.t }.
End XRPLedgerAPIClient.

Module LegacyGRPCNetworkClient.
Import Legacy.

Record t : Type := mk { grpcClient : XRPLedgerAPIClient.t }.

Definition getAccountInfo (this : t)
    (getAccountInfoRequest : GetAccountInfoRequest.t)
  : Settlement AccountInfo.t :=
  newPromise callbackLoose
    (XRPLedgerAPIClient.getAccountInfo (grpcClient this)
       getAccountInfoRequest).

Definition getFee (this : t) (getFeeRequest : GetFeeRequest.t)
  : Settlement Fee.t :=
  newPromise callbackLoose
    (XRPLedgerAPIClient.getFee (grpcClient this) getFeeRequest).

Definition submitSignedTransaction (this : t)
    (submitSignedTransactionRequest : SubmitSignedTransactionRequest.t)
  : Settlement SubmitSignedTransactionResponse.t :=
  newPromise callbackStrict
    (XRPLedgerAPIClient.submitSignedTransaction (grpcClient this)
       submitSignedTransactionRequest).

Definition getLatestValidatedLedgerSequence (this : t)
    (getLatestValidatedLedgerSequenceRequest :
       GetLatestValidatedLedgerSequenceRequest.t)
  : Settlement LedgerSequence.t :=
  newPromise callbackLoose
    (XRPLedgerAPIClient.getLatestValidatedLedgerSequence (grpcClient this)
       getLatestValidatedLedgerSequenceRequest).

Definition getTransactionStatus (this : t)
    (getTransactionStatusRequest : GetTransactionStatusRequest.t)
  : Settlement TransactionStatus.t :=
  newPromise callbackLoose
    (XRPLedgerAPIClient.getTransactionStatus (grpcClient this)
       getTransactionStatusRequest).

(** The constructor.  It sets the property [XMLHttpRequest] of the global
    object to the module [xhr2] inside a [try] whose [catch] is empty, then
    builds the transport client from the URL.  [require] returns a module
    or throws (as it does, being undefined, in a browser); the global
    object is seen through that one property, [None] when it has none. *)
Section Construction.
Variable Implementation : Type.
Variable require : string -> JsError + Implementation.
Variable newXRPLedgerAPIClient : string -> XRPLedgerAPIClient.t.

Definition new (grpcURL : string) (XMLHttpRequest : option Implementation)
  : option Implementation * t :=
  let XMLHttpRequest :=
    match require "xhr2" with
    | inr xhr2 => Some xhr2
    | inl _ => XMLHttpRequest
    end in
  (XMLHttpRequest, mk (newXRPLedgerAPIClient grpcURL)).

End Construction.

End LegacyGRPCNetworkClient.

(** The first [GRPCNetworkClient], over [RippledClient].  The messages of
    [rippled_pb] are not in these sources and nothing here looks inside
    them: they are type parameters. *)
Module GRPCNetworkClient.
Section Messages.
Variables AccountInfoRequest AccountInfo InjectionRequest InjectionResponse
  : Type.

Record RippledClient : Type :=
  mkRippledClient
    { rippledGetAccountInfo : UnaryCall AccountInfoRequest AccountInfo;
      rippledInject : UnaryCall InjectionRequest InjectionResponse }.

Record t : Type := mk { grpcClient : RippledClient }.

Definition getAccountInfo (this : t) (accountInfoRequest : AccountInfoRequest)
  : Settlement AccountInfo :=
  newPromise callbackLoose
    (rippledGetAccountInfo (grpcClient this) accountInfoRequest).

Definition injectOperation (this : t) (injectionRequest : InjectionRequest)
  : Settlement InjectionResponse :=
  newPromise callbackLoose (rippledInject (grpcClient this) injectionRequest).

End Messages.
End GRPCNetworkClient.

End Grpc.

(** ** DefaultXpringClient *)

Module Default.

(** *** Messages of [rpc/v1] *)

Module XRPDropsAmount.
Record t : Type := mk { getDrops : Z }.
End XRPDropsAmount.

Module Fee.
Record t : Type := mk { getMinimumFee : option XRPDropsAmount.t }.
End Fee.

Module GetFeeResponse.
Record t : Type := mk { getDrops : option Fee.t }.
End GetFeeResponse.

Module GetFeeRequest.
Record t : Type := mk { }.
End GetFeeRequest.

Module AccountAddress.
Record t : Type := mk { getAddress : string }.
End AccountAddress.

Module GetAccountInfoRequest.
Record t : Type := mk { getAccount : option AccountAddress.t }.
Definition new : t := mk None.
Definition setAccount (a : AccountAddress.t) (r : t) : t := mk (Some a).
End GetAccountInfoRequest.

(** The account data of a response.  Its class is not in these sources;
    the balance is tested for truthiness and handed to [BigInt], so it is
    kept as a value.  In [rpc/v1] it is an [XRPDropsAmount] message, an
    object ([JsObject] with its field [drops]), or missing
    ([JsUndefined]). *)
Module AccountRoot.
Record t : Type := mk { getBalance : JsValue }.
End AccountRoot.

Module GetAccountInfoResponse.
Record t : Type := mk { getAccountData : option AccountRoot.t }.
End GetAccountInfoResponse.

(** [TransactionStatus] of [./transaction-status]. *)
Inductive TransactionStatus : Type :=
| StatusFailed
| StatusPending
| StatusSucceeded
| StatusUnknown.

Inductive Call : Type :=
| CallGetAccountInfo (req : GetAccountInfoRequest.t)
                     (res : Outcome GetAccountInfoResponse.t)
| CallGetFee (req : GetFeeRequest.t) (res : Outcome GetFeeResponse.t).

(** [NetworkClient]: the operations [DefaultXpringClient] uses. *)
Record NetworkClient (S : Type) : Type :=
  { getAccountInfo :
      GetAccountInfoRequest.t -> S -> S * Outcome GetAccountInfoResponse.t;
    getFee : GetFeeRequest.t -> S -> S * Outcome GetFeeResponse.t }.
Arguments getAccountInfo {S} _ _ _.
Arguments getFee {S} _ _ _.

Module XpringClientErrorMessages.
Definition malformedResponse : string := "Malformed Response.".
Definition unimplemented : string := "Unimplemented.".
Definition xAddressRequired : string :=
  "Please use the X-Address format. See: https://xrpaddress.info/.".
End XpringClientErrorMessages.

Module DefaultXpringClient.
Import XpringClientErrorMessages.

Section Operations.
Context {S : Type}.
Variable networkClient : NetworkClient S.
(** [Utils.isValidXAddress] of xpring-common-js, and the builtin [BigInt],
    which returns an integer or throws. *)
Variable isValidXAddress : string -> bool.
Variable BigInt : JsValue -> JsError + Z.

Definition getBalance (address : string) : Promise S Call Z :=
  if negb (isValidXAddress address)
  then rejectError xAddressRequired
  else
    let account := AccountAddress.mk address in
    let request := GetAccountInfoRequest.setAccount account
                     GetAccountInfoRequest.new in
    accountInfo <- rpc CallGetAccountInfo
                       (Default.getAccountInfo networkClient) request ;;
    match GetAccountInfoResponse.getAccountData accountInfo with
    | None => rejectError malformedResponse
    | Some accountData =>
        let balance := AccountRoot.getBalance accountData in
        if negb (toBoolean balance)
        then rejectError malformedResponse
        else
          match BigInt balance with
          | inl thrown => reject (Value thrown)
          | inr n => ret n
          end
    end.

Definition getTransactionStatus (transactionHash : string)
  : Promise S Call TransactionStatus :=
  rejectError unimplemented.

Definition send (amount : JsValue) (destination : string)
    (sender : Legacy.Wallet.t) : Promise S Call string :=
  rejectError unimplemented.



(** [!fee] and [!minimumFee] test references to messages: an object is
    truthy, so each test holds only when the reference is missing. *)
Definition getFee : Promise S Call XRPDropsAmount.t :=
  let getFeeRequest := GetFeeRequest.mk in
  getFeeResponse <- rpc CallGetFee (Default.getFee networkClient)
                        getFeeRequest ;;
  let fee := GetFeeResponse.getDrops getFeeResponse in
  match fee with
  | None => rejectError malformedResponse
  | Some fee =>
      let minimumFee := Fee.getMinimumFee fee in
      match minimumFee with
      | None => rejectError malformedResponse
      | Some minimumFee => ret minimumFee
      end
  end.

End Operations.
End DefaultXpringClient.

End Default.

(** ** Fixtures *)

Module Fixtures.
Import Legacy.

Definition recipientAddress : string :=
  "X7cBcY4bdTTzk3LHmrKAK6GyrirkXfLHGFxzke5zTmYMfw4".

Definition wallet : Wallet.t :=
  Wallet.mk "031D68BC1A142E6766B2BDFB006CCFE135EF2E0E2E94ABB5CF5C9AB6104776FBAE"
            "0090802A50AA84EFB6CDB225F17C27616EA94048C179142FECF03F4712A07EA7A4"
            "XVfC9CTCJh6GN2x8bnrw3LtdbqiVCUvtU3HnooQDgBnUpQT".

Definition oneDrop : XRPAmount.t := XRPAmount.ofDrops "1".

(** Signers: one that signs, one that throws, one that returns nothing. *)
Definition signs : Signer :=
  fun transaction wallet =>
    Returns (Some (SignedTransaction.mk transaction "3045022100"
                     (Wallet.getPublicKey wallet))).

Definition throws (msg : string) : Signer :=
  fun _ _ => Throws (mkError msg).

Definition returnsNothing : Signer := fun _ _ => Returns None.

(** The legacy client's view of a fake over given responses. *)
Definition fake (responses : FakeLegacyNetworkClientResponses.t)
  : NetworkClient unit :=
  FakeLegacyNetworkClient.client (FakeLegacyNetworkClient.mk responses).

(** The rejection with the default error of the fake. *)
Definition failure {A} : Outcome A :=
  Rejected (Value FakeLegacyNetworkClientResponses.defaultError).

(** A classic address, which is not an X-address. *)
Definition classicAddress : string := "rU6K7V3Po4snVhBBaU29sesqs2qTQJWDw1".

(** A validity check that accepts [recipientAddress] alone. *)
Definition onlyRecipientIsValid (address : string) : bool :=
  address =? recipientAddress.

(** [BigInt] on the values that need no parsing. *)
Definition bigInt (v : JsValue) : JsError + Z :=
  match v with
  | JsNumber z | JsBigInt z => inr z
  | JsBoolean b => inr (if b then 1%Z else 0%Z)
  | _ => inl (mkError "Cannot convert to a BigInt")
  end.

(** [BigInt] on a message: a message is converted through its text, which
    for a message of one number field is the text of that number. *)
Definition bigIntOfMessage (v : JsValue) : JsError + Z :=
  match v with
  | JsObject [(_, z)] => inr z
  | _ => bigInt v
  end.

(** A backend of [DefaultXpringClient] that reports a balance of 0 drops
    and a minimum fee of 0 drops. *)
Definition zeroClient : Default.NetworkClient unit :=
  {| Default.getAccountInfo := fun _ s =>
       (s, Resolved (Default.GetAccountInfoResponse.mk
                       (Some (Default.AccountRoot.mk
                                (JsObject [("drops", 0%Z)])))));
     Default.getFee := fun _ s =>
       (s, Resolved (Default.GetFeeResponse.mk
                       (Some (Default.Fee.mk
                                (Some (Default.XRPDropsAmount.mk 0)))))) |}.

(** A transport that says [null] for what is absent: it reports success
    with a response for [getAccountInfo], [getFee] and
    [submitSignedTransaction], and an error without a response for the two
    status queries. *)
Definition transportSayingNull : Grpc.XRPLedgerAPIClient.t :=
  Grpc.XRPLedgerAPIClient.mk
    (fun _ => [(Null,
                Value (FakeLegacyNetworkClientResponses.defaultAccountInfoResponse
                         (Some 0%Z)))])
    (fun _ => [(Null,
                Value FakeLegacyNetworkClientResponses.defaultFeeResponse)])
    (fun _ => [(Null,
                Value FakeLegacyNetworkClientResponses.defaultSubmitSignedTransactionResponse);
               (Value FakeLegacyNetworkClientResponses.defaultError, Null)])
    (fun _ => [(Value FakeLegacyNetworkClientResponses.defaultError, Null)])
    (fun _ => [(Value FakeLegacyNetworkClientResponses.defaultError, Null)]).


(** A backend of [DefaultXpringClient] that reports a balance of 4000. *)
Definition fundedClient : Default.NetworkClient unit :=
  {| Default.getAccountInfo := fun _ s =>
       (s, Resolved (Default.GetAccountInfoResponse.mk
                       (Some (Default.AccountRoot.mk (JsNumber 4000)))));
     Default.getFee := fun _ s => (s, failure) |}.

(** No call made yet. *)
Definition start {C} : World unit C := mkWorld tt [].

End Fixtures.

(** * Properties *)

(** ** Running promises *)

Section PromiseFacts.
Context {S C : Type}.

Lemma andThen_resolved {A B} (p : Promise S C A) (f : A -> Promise S C B)
    (w w' : World S C) (a : A) :
  p w = (w', Resolved a) -> (x <- p ;; f x) w = f a w'.
Proof. intros H. cbn. unfold andThen. rewrite H. reflexivity. Qed.

Lemma andThen_rejected {A B} (p : Promise S C A) (f : A -> Promise S C B)
    (w w' : World S C) (r : Reason) :
  p w = (w', Rejected r) -> (x <- p ;; f x) w = (w', Rejected r).
Proof. intros H. cbn. unfold andThen. rewrite H. reflexivity. Qed.

Lemma rpc_settles {Req Resp} (tag : Req -> Outcome Resp -> C)
    (op : Req -> S -> S * Outcome Resp) (req : Req) (w : World S C)
    (s' : S) (o : Outcome Resp) :
  op req (backend w) = (s', o) ->
  rpc tag op req w = (mkWorld s' (calls w ++ [tag req o]), o).
Proof. intros H. unfold rpc. rewrite H. reflexivity. Qed.

End PromiseFacts.

Lemma contains_suffix (before needle : string) :
  contains (before ++ needle) needle.
Proof.
  exists before, "". f_equal.
  induction needle as [|c n IH]; cbn; [reflexivity | now rewrite <- IH].
Qed.

Lemma append_assoc (a b c : string) : (a ++ b) ++ c = a ++ b ++ c.
Proof. induction a as [|x a IH]; cbn; [reflexivity | now rewrite IH]. Qed.

(** ** The legacy client, step by step *)

Section LegacySteps.
Import Legacy Legacy.XpringClientErrorMessages Legacy.SendPipeline.
Context {S : Type}.
Variable networkClient : NetworkClient S.
Variable signTransaction : Signer.

Lemma getAccountInfo_run (address : string) (w : World S Call) s1 o :
  getAccountInfo networkClient (GetAccountInfoRequest.mk address) (backend w)
  = (s1, o) ->
  XpringClient.getAccountInfo networkClient address w
  = (mkWorld s1
       (calls w ++ [CallGetAccountInfo (GetAccountInfoRequest.mk address) o]),
     o).
Proof. intros H. unfold XpringClient.getAccountInfo. now apply rpc_settles. Qed.

Lemma getFee_run (w : World S Call) s1 o :
  getFee networkClient GetFeeRequest.mk (backend w) = (s1, o) ->
  XpringClient.getFee networkClient w
  = (mkWorld s1 (calls w ++ [CallGetFee GetFeeRequest.mk o]),
     match o with
     | Resolved fee =>
         match Fee.getAmount fee with
         | Some feeAmount => Resolved feeAmount
         | None => malformed
         end
     | Rejected r => Rejected r
     end).
Proof.
  intros H. unfold XpringClient.getFee. cbn. unfold andThen.
  rewrite (rpc_settles _ _ _ _ _ _ H).
  destruct o as [fee | r]; [| reflexivity].
  destruct (Fee.getAmount fee); reflexivity.
Qed.

Lemma send_fee_rejected sender amount destination (w : World S Call) s1 r :
  getFee networkClient GetFeeRequest.mk (backend w) = (s1, Rejected r) ->
  XpringClient.send networkClient signTransaction sender amount destination w
  = (mkWorld s1 (calls w ++ [CallGetFee GetFeeRequest.mk (Rejected r)]),
     Rejected r).
Proof.
  intros H. unfold XpringClient.send.
  apply andThen_rejected. now rewrite (getFee_run _ _ _ H).
Qed.

Lemma send_fee_malformed sender amount destination (w : World S Call) s1 fee :
  getFee networkClient GetFeeRequest.mk (backend w) = (s1, Resolved fee) ->
  Fee.getAmount fee = None ->
  XpringClient.send networkClient signTransaction sender amount destination w
  = (mkWorld s1 (calls w ++ [CallGetFee GetFeeRequest.mk (Resolved fee)]),
     malformed).
Proof.
  intros H Hnone. unfold XpringClient.send.
  apply andThen_rejected. rewrite (getFee_run _ _ _ H), Hnone. reflexivity.
Qed.

Section FeeFetched.
Variables (sender : Wallet.t) (amount : XRPAmount.t) (destination : string).
Variables (w : World S Call) (s1 : S) (fee : Fee.t) (feeAmount : XRPAmount.t).
Hypothesis fee_resolved :
  getFee networkClient GetFeeRequest.mk (backend w) = (s1, Resolved fee).
Hypothesis fee_present : Fee.getAmount fee = Some feeAmount.

Lemma send_account_rejected s2 r :
  getAccountInfo networkClient (requestFor sender) s1 = (s2, Rejected r) ->
  XpringClient.send networkClient signTransaction sender amount destination w
  = (mkWorld s2
       (calls w ++ [CallGetFee GetFeeRequest.mk (Resolved fee);
                    CallGetAccountInfo (requestFor sender) (Rejected r)]),
     Rejected r).
Proof.
  intros H. unfold XpringClient.send.
  rewrite (andThen_resolved _ _ w _ feeAmount)
    by now rewrite (getFee_run _ _ _ fee_resolved), fee_present.
  apply andThen_rejected.
  rewrite (getAccountInfo_run _ (mkWorld s1 _) _ _ H). cbn.
  now rewrite <- app_assoc.
Qed.

Lemma send_account_fetched s2 accountInfo :
  getAccountInfo networkClient (requestFor sender) s1
  = (s2, Resolved accountInfo) ->
  let w2 :=
    mkWorld s2
      (calls w ++ [CallGetFee GetFeeRequest.mk (Resolved fee);
                   CallGetAccountInfo (requestFor sender)
                     (Resolved accountInfo)]) in
  XpringClient.send networkClient signTransaction sender amount destination w
  = match AccountInfo.getSequence accountInfo with
    | None => (w2, malformed)
    | Some sequence =>
        let transaction :=
          assemble sender amount feeAmount sequence destination in
        let signed := signTransaction transaction sender in
        let w3 := record (CallSignTransaction transaction sender signed) w2 in
        match signed with
        | Throws signingError =>
            (w3, Rejected (Value (mkError (signingFailure ++ ". "
                                           ++ message signingError))))
        | Returns None => (w3, Rejected (Value (mkError signingFailure)))
        | Returns (Some signedTransaction) =>
            let request :=
              SubmitSignedTransactionRequest.mk signedTransaction in
            let (s3, o) := submitSignedTransaction networkClient request s2 in
            (mkWorld s3
               (calls w3 ++ [CallSubmitSignedTransaction request o]), o)
        end
    end.
Proof.
  intros H w2. unfold XpringClient.send.
  rewrite (andThen_resolved _ _ w _ feeAmount)
    by now rewrite (getFee_run _ _ _ fee_resolved), fee_present.
  rewrite (andThen_resolved _ _ _ w2 accountInfo)
    by (rewrite (getAccountInfo_run _ (mkWorld s1 _) _ _ H); cbn;
        now rewrite <- app_assoc).
  destruct (AccountInfo.getSequence accountInfo) as [sequence|];
    [| reflexivity].
  unfold assemble.
  destruct (signTransaction _ sender) as [[signedTransaction|]|e];
    reflexivity.
Qed.

End FeeFetched.

End LegacySteps.

(** ** The legacy client over the fake *)

Section LegacyOverFake.
Import Legacy Legacy.XpringClientErrorMessages Legacy.SendPipeline.
Import Legacy.FakeLegacyNetworkClientResponses.
Context {S : Type}.

(** C1, as amended.  Over the default all-success responses, whose account
    info has a balance and no sequence set, and with a signer that signs,
    [send] resolves with the default submission result ("tesSUCCESS",
    "DEADBEEF"); the one transaction handed to the signer carries a fee of
    10 drops and, as its sequence, the number [n] that an account info
    reads when its sequence was never set. *)
Theorem send_over_default_responses (n : Z) (signTransaction : Signer)
    (sender : Wallet.t) (amount : XRPAmount.t) (destination : string)
    (signed : SignedTransaction.t) (w : World S Call) :
  let responses := defaultSuccessfulResponses (Some n) in
  let networkClient : NetworkClient S :=
    FakeLegacyNetworkClient.client (FakeLegacyNetworkClient.mk responses) in
  let transaction :=
    assemble sender amount (XRPAmount.ofDrops "10") n destination in
  let request := SubmitSignedTransactionRequest.mk signed in
  signTransaction transaction sender = Returns (Some signed) ->
  XpringClient.send networkClient signTransaction sender amount destination w
  = (mkWorld (backend w)
       (calls w ++
        [CallGetFee GetFeeRequest.mk (Resolved defaultFeeResponse);
         CallGetAccountInfo
           (GetAccountInfoRequest.mk (Wallet.getAddress sender))
           (Resolved (defaultAccountInfoResponse (Some n)));
         CallSignTransaction transaction sender (Returns (Some signed));
         CallSubmitSignedTransaction request
           (Resolved defaultSubmitSignedTransactionResponse)]),
     Resolved defaultSubmitSignedTransactionResponse)
  /\ SubmitSignedTransactionResponse.getEngineResult
       defaultSubmitSignedTransactionResponse = "tesSUCCESS"
  /\ SubmitSignedTransactionResponse.getTransactionBlob
       defaultSubmitSignedTransactionResponse = "DEADBEEF"
  /\ Transaction.getFee transaction = XRPAmount.ofDrops "10"
  /\ Transaction.getSequence transaction = n.
Proof.
  intros responses networkClient transaction request Hsign.
  repeat split.
  rewrite (send_account_fetched networkClient signTransaction sender amount
             destination w (backend w) defaultFeeResponse
             (XRPAmount.ofDrops "10") eq_refl eq_refl (backend w)
             (defaultAccountInfoResponse (Some n)) eq_refl).
  cbn [AccountInfo.getSequence defaultAccountInfoResponse
       AccountInfo.setBalance AccountInfo.new].
  fold transaction. cbv zeta. rewrite Hsign.
  cbn. rewrite <- !app_assoc. reflexivity.
Qed.

(** C5.  [getBalance] resolves with exactly the balance of the account
    info that the backend returns, for every address, and is rejected with
    the malformed-response error when that account info has no balance;
    over the default responses the balance is the configured 4000 drops. *)
Theorem getBalance_projects_balance (networkClient : NetworkClient S)
    (address : string) (w : World S Call) (s1 : S)
    (accountInfo : AccountInfo.t) :
  let request := GetAccountInfoRequest.mk address in
  getAccountInfo networkClient request (backend w)
  = (s1, Resolved accountInfo) ->
  (forall balance, AccountInfo.getBalance accountInfo = Some balance ->
     XpringClient.getBalance networkClient address w
     = (mkWorld s1
          (calls w ++ [CallGetAccountInfo request (Resolved accountInfo)]),
        Resolved balance))
  /\ (AccountInfo.getBalance accountInfo = None ->
      XpringClient.getBalance networkClient address w
      = (mkWorld s1
           (calls w ++ [CallGetAccountInfo request (Resolved accountInfo)]),
         malformed))
  /\ (forall unsetSequence,
        snd (XpringClient.getBalance
               (FakeLegacyNetworkClient.client
                  (FakeLegacyNetworkClient.mk
                     (defaultSuccessfulResponses unsetSequence)))
               address w)
        = Resolved (XRPAmount.ofDrops "4000")).
Proof.
  intros request H. unfold XpringClient.getBalance. repeat split.
  - intros balance Hb.
    rewrite (andThen_resolved _ _ _ _ _ (getAccountInfo_run _ _ _ _ _ H)).
    cbv zeta. now rewrite Hb.
  - intros Hb.
    rewrite (andThen_resolved _ _ _ _ _ (getAccountInfo_run _ _ _ _ _ H)).
    cbv zeta. now rewrite Hb.
Qed.


(** C3 at its failing input.  The default account info of the fake has a
    balance and no sequence: it lacks a sequence number.  Its sequence
    reads 0, which is not [undefined], so the test for a missing sequence
    lets it pass: whatever the signer is, [send] hands it a transaction
    with sequence 0 and is not rejected as malformed, and when the signer
    signs it submits and resolves.  A fee without an amount, for
    comparison, is rejected as malformed after the one call. *)
Theorem send_signs_unset_sequence (signTransaction : Signer)
    (sender : Wallet.t) (amount : XRPAmount.t) (destination : string)
    (w : World S Call) :
  let lacksSequence :=
    AccountInfo.setBalance (XRPAmount.ofDrops "4000")
      (AccountInfo.new (Some 0%Z)) in
  let networkClient : NetworkClient S :=
    FakeLegacyNetworkClient.client
      (FakeLegacyNetworkClient.mk
         (new (Some 0%Z) (Some (Success lacksSequence)) None None None None))
  in
  let transaction :=
    assemble sender amount (XRPAmount.ofDrops "10") 0 destination in
  let run :=
    XpringClient.send networkClient signTransaction sender amount
      destination w in
  let lacksAmount : NetworkClient S :=
    FakeLegacyNetworkClient.client
      (FakeLegacyNetworkClient.mk
         (new (Some 0%Z) None (Some (Success Fee.new)) None None None)) in
  defaultAccountInfoResponse (Some 0%Z) = lacksSequence
  /\ In (CallSignTransaction transaction sender
           (signTransaction transaction sender))
        (calls (fst run))
  /\ snd run <> malformed
  /\ (forall signed,
        signTransaction transaction sender = Returns (Some signed) ->
        In (CallSubmitSignedTransaction
              (SubmitSignedTransactionRequest.mk signed)
              (Resolved defaultSubmitSignedTransactionResponse))
           (calls (fst run))
        /\ snd run = Resolved defaultSubmitSignedTransactionResponse)
  /\ XpringClient.send lacksAmount signTransaction sender amount
       destination w
     = (mkWorld (backend w)
          (calls w ++ [CallGetFee GetFeeRequest.mk (Resolved Fee.new)]),
        malformed).
Proof.
  intros lacksSequence networkClient transaction run lacksAmount.
  assert (Hrun :
            run
            = let signed := signTransaction transaction sender in
              let w3 :=
                mkWorld (backend w)
                  (calls w ++
                   [CallGetFee GetFeeRequest.mk (Resolved defaultFeeResponse);
                    CallGetAccountInfo (requestFor sender)
                      (Resolved lacksSequence);
                    CallSignTransaction transaction sender signed]) in
              match signed with
              | Throws signingError =>
                  (w3, Rejected (Value (mkError (signingFailure ++ ". "
                                                 ++ message signingError))))
              | Returns None => (w3, Rejected (Value (mkError signingFailure)))
              | Returns (Some signedTransaction) =>
                  (mkWorld (backend w)
                     (calls w3 ++
                      [CallSubmitSignedTransaction
                         (SubmitSignedTransactionRequest.mk signedTransaction)
                         (Resolved defaultSubmitSignedTransactionResponse)]),
                   Resolved defaultSubmitSignedTransactionResponse)
              end).
  { unfold run.
    rewrite (send_account_fetched networkClient signTransaction sender amount
               destination w (backend w) defaultFeeResponse
               (XRPAmount.ofDrops "10") eq_refl eq_refl (backend w)
               lacksSequence eq_refl).
    cbn [AccountInfo.getSequence lacksSequence AccountInfo.setBalance
         AccountInfo.new].
    fold transaction. cbv zeta. unfold record. cbn [backend calls].
    rewrite <- !app_assoc.
    destruct (signTransaction transaction sender) as [[signed |] | thrown];
      reflexivity. }
  split; [reflexivity |].
  assert (Hfee : XpringClient.send lacksAmount signTransaction sender amount
                   destination w
                 = (mkWorld (backend w)
                      (calls w ++ [CallGetFee GetFeeRequest.mk
                                     (Resolved Fee.new)]),
                    malformed))
    by now apply send_fee_malformed.
  rewrite Hrun. cbv zeta.
  destruct (signTransaction transaction sender) as [[signed |] | thrown];
    cbn [fst snd calls].
  - split; [| split; [| split]].
    + apply in_or_app. left. apply in_or_app. right. cbn. auto.
    + discriminate.
    + intros signed' Heq. injection Heq as <-.
      split; [| reflexivity]. apply in_or_app. right. cbn. auto.
    + exact Hfee.
  - split; [| split; [| split]].
    + apply in_or_app. right. cbn. auto.
    + discriminate.
    + intros signed' Heq. discriminate Heq.
    + exact Hfee.
  - split; [| split; [| split]].
    + apply in_or_app. right. cbn. auto.
    + discriminate.
    + intros signed' Heq. discriminate Heq.
    + exact Hfee.
Qed.

End LegacyOverFake.

(** The default responses with an unset sequence that reads 0, and a signer
    that signs. *)
Lemma send_over_default_responses_witness :
  let transaction :=
    Legacy.SendPipeline.assemble Fixtures.wallet Fixtures.oneDrop
      (Legacy.XRPAmount.ofDrops "10") 0 Fixtures.recipientAddress in
  Fixtures.signs transaction Fixtures.wallet
  = Legacy.Returns
      (Some (Legacy.SignedTransaction.mk transaction "3045022100"
               (Legacy.Wallet.getPublicKey Fixtures.wallet)))
  /\ snd (Legacy.XpringClient.send
            (Fixtures.fake
               (Legacy.FakeLegacyNetworkClientResponses.defaultSuccessfulResponses
                  (Some 0%Z)))
            Fixtures.signs Fixtures.wallet Fixtures.oneDrop
            Fixtures.recipientAddress Fixtures.start)
     = Resolved
         Legacy.FakeLegacyNetworkClientResponses.defaultSubmitSignedTransactionResponse.
Proof.
  split; [reflexivity |].
  destruct (send_over_default_responses (S := unit) 0 Fixtures.signs
              Fixtures.wallet Fixtures.oneDrop Fixtures.recipientAddress _
              Fixtures.start eq_refl) as [H _].
  unfold Fixtures.fake. rewrite H. reflexivity.
Defined.

(** C1, as stated, fails.  The default account info has no sequence set:
    whether such a message reads 0 (the default of the field) or nothing,
    no transaction with sequence 12 reaches the signer.  12 is the index of
    the default ledger sequence, which [send] never asks for. *)
Lemma send_default_sequence_counterexample :
  let run unsetSequence :=
    Legacy.XpringClient.send
      (Fixtures.fake
         (Legacy.FakeLegacyNetworkClientResponses.defaultSuccessfulResponses
            unsetSequence))
      Fixtures.signs Fixtures.wallet Fixtures.oneDrop
      Fixtures.recipientAddress Fixtures.start in
  let signedWithSequence12 unsetSequence :=
    exists transaction,
      In transaction
         (Legacy.SendPipeline.transactionsSigned
            (calls (fst (run unsetSequence))))
      /\ Legacy.Transaction.getSequence transaction = 12%Z in
  ~ signedWithSequence12 (Some 0%Z)
  /\ ~ signedWithSequence12 None
  /\ snd (run None) = Legacy.SendPipeline.malformed.
Proof.
  cbv zeta. repeat split.
  - intros [transaction [Hin Hseq]]. vm_compute in Hin.
    destruct Hin as [<- | []]. discriminate Hseq.
  - intros [transaction [Hin _]]. vm_compute in Hin. exact Hin.
Qed.

(** The default responses: a balance of 4000 drops. *)
Lemma getBalance_projects_balance_witness :
  snd (Legacy.XpringClient.getBalance
         (Fixtures.fake
            (Legacy.FakeLegacyNetworkClientResponses.defaultSuccessfulResponses
               None))
         Fixtures.recipientAddress Fixtures.start)
  = Resolved (Legacy.XRPAmount.ofDrops "4000").
Proof.
  destruct (getBalance_projects_balance (S := unit)
              (Fixtures.fake
                 (Legacy.FakeLegacyNetworkClientResponses.defaultSuccessfulResponses
                    None))
              Fixtures.recipientAddress Fixtures.start tt
              (Legacy.FakeLegacyNetworkClientResponses.defaultAccountInfoResponse
                 None)
              eq_refl) as [H _].
  rewrite (H (Legacy.XRPAmount.ofDrops "4000") eq_refl). reflexivity.
Defined.

(** ** The legacy pipeline over any backend *)

Section LegacyPipeline.
Import Legacy Legacy.XpringClientErrorMessages Legacy.SendPipeline.
Context {S : Type}.
Variable networkClient : NetworkClient S.
Variable signTransaction : Signer.
Variables (sender : Wallet.t) (amount : XRPAmount.t) (destination : string).
Variable w : World S Call.

(** C4.  Once the fee and the sequence are fetched: when the signer throws,
    [send] is rejected with an error whose message is the signing-failure
    message, a full stop, and the message of what was thrown, so it
    contains that message; when the signer returns nothing, [send] is
    rejected with the signing-failure message alone.  In both cases nothing
    is submitted. *)
Theorem send_signing_failure s1 fee feeAmount s2 accountInfo sequence :
  getFee networkClient GetFeeRequest.mk (backend w) = (s1, Resolved fee) ->
  Fee.getAmount fee = Some feeAmount ->
  getAccountInfo networkClient (requestFor sender) s1
  = (s2, Resolved accountInfo) ->
  AccountInfo.getSequence accountInfo = Some sequence ->
  let transaction := assemble sender amount feeAmount sequence destination in
  let fetched : list Call :=
    (calls w ++ [CallGetFee GetFeeRequest.mk (Resolved fee);
                 CallGetAccountInfo (requestFor sender) (Resolved accountInfo)])%list
  in
  (forall thrown,
     signTransaction transaction sender = Throws thrown ->
     let signingErrorMessage :=
       "Unable to sign the transaction" ++ ". " ++ message thrown in
     XpringClient.send networkClient signTransaction sender amount
       destination w
     = (mkWorld s2
          (fetched ++ [CallSignTransaction transaction sender
                         (Throws thrown)]),
        Rejected (Value (mkError signingErrorMessage)))
     /\ contains signingErrorMessage (message thrown))
  /\ (signTransaction transaction sender = Returns None ->
      XpringClient.send networkClient signTransaction sender amount
        destination w
      = (mkWorld s2
           (fetched ++ [CallSignTransaction transaction sender
                          (Returns None)]),
         Rejected (Value (mkError "Unable to sign the transaction")))).
Proof.
  intros Hfee Hamount Hinfo Hseq transaction fetched.
  pose proof (send_account_fetched networkClient signTransaction sender
                amount destination w s1 fee feeAmount Hfee Hamount
                s2 accountInfo Hinfo) as Hsend.
  cbv zeta in Hsend. rewrite Hseq in Hsend. fold transaction in Hsend.
  split.
  - intros thrown Hthrown signingErrorMessage.
    rewrite Hthrown in Hsend. split; [exact Hsend |].
    unfold signingErrorMessage.
    rewrite <- (append_assoc "Unable to sign the transaction" ". ").
    apply contains_suffix.
  - intros Hnothing. rewrite Hnothing in Hsend. exact Hsend.
Qed.


End LegacyPipeline.

(** Whatever the arguments, the first thing [send] does is to ask for the
    fee. *)
Lemma send_starts_with_getFee {S} (networkClient : Legacy.NetworkClient S)
    (signTransaction : Legacy.Signer) sender amount destination
    (w : World S Legacy.Call) :
  exists res rest,
    calls (fst (Legacy.XpringClient.send networkClient signTransaction sender
                  amount destination w))
    = (calls w ++ Legacy.CallGetFee Legacy.GetFeeRequest.mk res :: rest)%list.
Proof.
  unfold Legacy.XpringClient.send, Legacy.XpringClient.getFee,
    Legacy.XpringClient.getAccountInfo.
  cbn. unfold andThen, rpc.
  destruct (Legacy.getFee networkClient _ (backend w)) as [s1 [fee | r]];
    [| now exists (Rejected r), []].
  exists (Resolved fee).
  destruct (Legacy.Fee.getAmount fee); [| now exists []].
  cbn.
  destruct (Legacy.getAccountInfo networkClient _ s1)
    as [s2 [accountInfo | r]]; cbn;
    [| eexists; rewrite <- app_assoc; reflexivity].
  destruct (Legacy.AccountInfo.getSequence accountInfo); cbn;
    [| eexists; rewrite <- app_assoc; reflexivity].
  destruct (signTransaction _ sender) as [[signed |] | thrown]; cbn;
    [destruct (Legacy.submitSignedTransaction networkClient _ s2); cbn | |];
    eexists; rewrite <- !app_assoc; reflexivity.
Qed.

(** ** Address validation *)

(** C2, as amended.  For every address that fails the X-address check,
    [getBalance] of [DefaultXpringClient] is rejected with the
    X-address-required error before any operation of the backend: the
    backend is left as it was and no call is made.  The legacy
    [XpringClient] checks no address: its [getBalance] and its [send] begin
    with a call of the backend whatever the addresses are. *)
Theorem getBalance_rejects_invalid_address {S}
    (networkClient : Default.NetworkClient S)
    (isValidXAddress : string -> bool) (BigInt : JsValue -> JsError + Z)
    (address : string) (w : World S Default.Call) :
  isValidXAddress address = false ->
  Default.DefaultXpringClient.getBalance networkClient isValidXAddress BigInt
    address w
  = (w, Rejected (Value (mkError
       "Please use the X-Address format. See: https://xrpaddress.info/.")))
  /\ (forall (legacy : Legacy.NetworkClient S) (lw : World S Legacy.Call),
        exists res,
          calls (fst (Legacy.XpringClient.getBalance legacy address lw))
          = (calls lw ++ [Legacy.CallGetAccountInfo
                            (Legacy.GetAccountInfoRequest.mk address) res])%list)
  /\ (forall (legacy : Legacy.NetworkClient S) signTransaction sender amount
             (lw : World S Legacy.Call),
        exists res rest,
          calls (fst (Legacy.XpringClient.send legacy signTransaction sender
                        amount address lw))
          = (calls lw ++ Legacy.CallGetFee Legacy.GetFeeRequest.mk res
                      :: rest)%list).
Proof.
  intros Hinvalid. repeat split.
  - unfold Default.DefaultXpringClient.getBalance. now rewrite Hinvalid.
  - intros legacy lw.
    unfold Legacy.XpringClient.getBalance, Legacy.XpringClient.getAccountInfo.
    cbn. unfold andThen, rpc.
    destruct (Legacy.getAccountInfo legacy _ (backend lw))
      as [s1 [accountInfo | r]]; [| now exists (Rejected r)].
    exists (Resolved accountInfo).
    now destruct (Legacy.AccountInfo.getBalance accountInfo).
  - intros. apply send_starts_with_getFee.
Qed.

(** A classic address under a check that accepts one X-address only. *)
Lemma getBalance_rejects_invalid_address_witness :
  Fixtures.onlyRecipientIsValid Fixtures.classicAddress = false
  /\ Default.DefaultXpringClient.getBalance Fixtures.zeroClient
       Fixtures.onlyRecipientIsValid Fixtures.bigInt Fixtures.classicAddress
       Fixtures.start
     = (Fixtures.start,
        Rejected (Value (mkError Default.XpringClientErrorMessages.xAddressRequired))).
Proof.
  split; [reflexivity |].
  exact (proj1 (getBalance_rejects_invalid_address Fixtures.zeroClient
                  Fixtures.onlyRecipientIsValid Fixtures.bigInt
                  Fixtures.classicAddress Fixtures.start eq_refl)).
Defined.

(** C2, as stated, fails for [send]: with a sender and a destination that
    fail the check, the legacy [send] over the default responses calls the
    backend three times and resolves. *)
Lemma send_unvalidated_counterexample :
  let sender :=
    Legacy.Wallet.mk (Legacy.Wallet.getPublicKey Fixtures.wallet)
      (Legacy.Wallet.getPrivateKey Fixtures.wallet) Fixtures.classicAddress in
  let run :=
    Legacy.XpringClient.send
      (Fixtures.fake
         (Legacy.FakeLegacyNetworkClientResponses.defaultSuccessfulResponses
            (Some 0%Z)))
      Fixtures.signs sender Fixtures.oneDrop Fixtures.classicAddress
      Fixtures.start in
  Fixtures.onlyRecipientIsValid Fixtures.classicAddress = false
  /\ isRejected (snd run) = false
  /\ length (filter Legacy.isNetworkCall (calls (fst run))) = 3.
Proof. cbv zeta. repeat split. Qed.

(** A signer that throws "no key", and one that returns nothing. *)
Lemma send_signing_failure_witness :
  let client :=
    Fixtures.fake
      (Legacy.FakeLegacyNetworkClientResponses.defaultSuccessfulResponses
         (Some 0%Z)) in
  let run signer :=
    Legacy.XpringClient.send client signer Fixtures.wallet Fixtures.oneDrop
      Fixtures.recipientAddress Fixtures.start in
  snd (run (Fixtures.throws "no key"))
  = Rejected (Value (mkError "Unable to sign the transaction. no key"))
  /\ contains "Unable to sign the transaction. no key" "no key"
  /\ snd (run Fixtures.returnsNothing)
     = Rejected (Value (mkError "Unable to sign the transaction")).
Proof.
  cbv beta zeta.
  destruct (proj1 (send_signing_failure
                     (Fixtures.fake
                        (Legacy.FakeLegacyNetworkClientResponses.defaultSuccessfulResponses
                           (Some 0%Z)))
                     (Fixtures.throws "no key") Fixtures.wallet
                     Fixtures.oneDrop Fixtures.recipientAddress Fixtures.start
                     tt Legacy.FakeLegacyNetworkClientResponses.defaultFeeResponse
                     (Legacy.XRPAmount.ofDrops "10") tt
                     (Legacy.FakeLegacyNetworkClientResponses.defaultAccountInfoResponse
                        (Some 0%Z))
                     0%Z eq_refl eq_refl eq_refl eq_refl)
              (mkError "no key") eq_refl) as [Hthrows Hcontains].
  pose proof
    (proj2 (send_signing_failure
              (Fixtures.fake
                 (Legacy.FakeLegacyNetworkClientResponses.defaultSuccessfulResponses
                    (Some 0%Z)))
              Fixtures.returnsNothing Fixtures.wallet
              Fixtures.oneDrop Fixtures.recipientAddress Fixtures.start
              tt Legacy.FakeLegacyNetworkClientResponses.defaultFeeResponse
              (Legacy.XRPAmount.ofDrops "10") tt
              (Legacy.FakeLegacyNetworkClientResponses.defaultAccountInfoResponse
                 (Some 0%Z))
              0%Z eq_refl eq_refl eq_refl eq_refl)
       eq_refl) as Hnothing.
  rewrite Hthrows, Hnothing. repeat split. exact Hcontains.
Defined.

(** ** DefaultXpringClient *)

Section DefaultClient.
Import Default Default.XpringClientErrorMessages.
Context {S : Type}.
Variable networkClient : NetworkClient S.
Variable isValidXAddress : string -> bool.
Variable BigInt : JsValue -> JsError + Z.
Variable w : World S Call.

(** C10.  [send] and [getTransactionStatus] of [DefaultXpringClient] are
    rejected with the error "Unimplemented." for every input; the backend
    is left as it was and no call is made. *)
Theorem default_send_unimplemented :
  (forall amount destination sender,
     DefaultXpringClient.send amount destination sender w
     = (w, Rejected (Value (mkError "Unimplemented."))))
  /\ (forall transactionHash,
        DefaultXpringClient.getTransactionStatus transactionHash w
        = (w, Rejected (Value (mkError "Unimplemented.")))).
Proof. split; reflexivity. Qed.

(** C9, as amended.  A field that is present is not taken for an absent
    one, whatever amount it holds.  The balance of the account data is a
    message, truthy whenever present: for a valid address [getBalance]
    resolves with what [BigInt] makes of it, 0 included, and is rejected
    with "Malformed Response." when the balance is missing.  The minimum
    fee is a message as well: [getFee] resolves with it whatever its
    drops, 0 included, and is rejected with "Malformed Response." when the
    fee of the response or its minimum fee is missing. *)
Theorem present_fields_are_returned (address : string) :
  let request :=
    GetAccountInfoRequest.mk (Some (AccountAddress.mk address)) in
  (forall s1 response accountData fields n,
     isValidXAddress address = true ->
     getAccountInfo networkClient request (backend w)
     = (s1, Resolved response) ->
     GetAccountInfoResponse.getAccountData response = Some accountData ->
     AccountRoot.getBalance accountData = JsObject fields ->
     BigInt (JsObject fields) = inr n ->
     DefaultXpringClient.getBalance networkClient isValidXAddress BigInt
       address w
     = (mkWorld s1 (calls w ++ [CallGetAccountInfo request (Resolved response)]),
        Resolved n))
  /\ (forall s1 response accountData,
        isValidXAddress address = true ->
        getAccountInfo networkClient request (backend w)
        = (s1, Resolved response) ->
        GetAccountInfoResponse.getAccountData response = Some accountData ->
        AccountRoot.getBalance accountData = JsUndefined ->
        DefaultXpringClient.getBalance networkClient isValidXAddress BigInt
          address w
        = (mkWorld s1 (calls w ++ [CallGetAccountInfo request
                                     (Resolved response)]),
           Rejected (Value (mkError "Malformed Response."))))
  /\ (forall s1 response fee minimumFee,
        getFee networkClient GetFeeRequest.mk (backend w)
        = (s1, Resolved response) ->
        GetFeeResponse.getDrops response = Some fee ->
        Fee.getMinimumFee fee = Some minimumFee ->
        DefaultXpringClient.getFee networkClient w
        = (mkWorld s1 (calls w ++ [CallGetFee GetFeeRequest.mk
                                     (Resolved response)]),
           Resolved minimumFee))
  /\ (forall s1 response,
        getFee networkClient GetFeeRequest.mk (backend w)
        = (s1, Resolved response) ->
        GetFeeResponse.getDrops response = None
        \/ (exists fee, GetFeeResponse.getDrops response = Some fee
                        /\ Fee.getMinimumFee fee = None) ->
        DefaultXpringClient.getFee networkClient w
        = (mkWorld s1 (calls w ++ [CallGetFee GetFeeRequest.mk
                                     (Resolved response)]),
           Rejected (Value (mkError "Malformed Response.")))).
Proof.
  intros request. repeat split.
  - intros s1 response accountData fields n Hvalid Hinfo Hdata Hmessage Hbig.
    unfold DefaultXpringClient.getBalance. rewrite Hvalid. cbn [negb].
    rewrite (andThen_resolved _ _ _ _ _ (rpc_settles _ _ _ _ _ _ Hinfo)).
    rewrite Hdata. cbv zeta. rewrite Hmessage. cbn [toBoolean negb].
    now rewrite Hbig.
  - intros s1 response accountData Hvalid Hinfo Hdata Hmissing.
    unfold DefaultXpringClient.getBalance. rewrite Hvalid. cbn [negb].
    rewrite (andThen_resolved _ _ _ _ _ (rpc_settles _ _ _ _ _ _ Hinfo)).
    rewrite Hdata. cbv zeta. now rewrite Hmissing.
  - intros s1 response fee minimumFee Hfee Hdrops Hminimum.
    unfold DefaultXpringClient.getFee.
    rewrite (andThen_resolved _ _ _ _ _ (rpc_settles _ _ _ _ _ _ Hfee)).
    cbv zeta. now rewrite Hdrops, Hminimum.
  - intros s1 response Hfee Hmissing.
    unfold DefaultXpringClient.getFee.
    rewrite (andThen_resolved _ _ _ _ _ (rpc_settles _ _ _ _ _ _ Hfee)).
    cbv zeta. destruct Hmissing as [-> | [fee [-> ->]]]; reflexivity.
Qed.

End DefaultClient.

(** A backend that reports a balance of 0 drops and a minimum fee of 0
    drops: both are returned. *)
Lemma present_fields_are_returned_witness :
  Fixtures.onlyRecipientIsValid Fixtures.recipientAddress = true
  /\ snd (Default.DefaultXpringClient.getBalance Fixtures.zeroClient
            Fixtures.onlyRecipientIsValid Fixtures.bigIntOfMessage
            Fixtures.recipientAddress Fixtures.start)
     = Resolved 0%Z
  /\ snd (Default.DefaultXpringClient.getFee Fixtures.zeroClient
            Fixtures.start)
     = Resolved (Default.XRPDropsAmount.mk 0).
Proof.
  split; [reflexivity |].
  destruct (present_fields_are_returned Fixtures.zeroClient
              Fixtures.onlyRecipientIsValid Fixtures.bigIntOfMessage
              Fixtures.start Fixtures.recipientAddress)
    as (Hbalance & _ & Hfee & _).
  rewrite (Hbalance tt _ _ _ 0%Z eq_refl eq_refl eq_refl eq_refl eq_refl).
  rewrite (Hfee tt _ _ _ eq_refl eq_refl eq_refl).
  split; reflexivity.
Defined.


(** C9, as stated, fails for the fee: a response whose minimum fee is 0
    drops is not malformed for [getFee], which resolves with that fee. *)
Lemma getFee_zero_drops_counterexample :
  let run := Default.DefaultXpringClient.getFee Fixtures.zeroClient
               Fixtures.start in
  snd run = Resolved (Default.XRPDropsAmount.mk 0)
  /\ snd run <> Rejected (Value (mkError "Malformed Response.")).
Proof. cbv zeta. split; [reflexivity | discriminate]. Qed.

(** ** The gRPC callbacks *)

Section GrpcCallbacks.
Import Grpc.
Context {A : Type}.

Lemma settled_stays (callback : CallbackArgs A -> Settlement A -> Settlement A)
    (invocations : list (CallbackArgs A)) (p : Settlement A) :
  (forall args q, q <> Pending -> callback args q = q) ->
  p <> Pending ->
  fold_left (fun q args => callback args q) invocations p = p.
Proof.
  intros Hkeep. revert p.
  induction invocations as [| args rest IH]; intros p Hp; cbn.
  - reflexivity.
  - rewrite (Hkeep args p Hp). now apply IH.
Qed.

Lemma callbackLoose_keeps (args : CallbackArgs A) (q : Settlement A) :
  q <> Pending -> callbackLoose args q = q.
Proof.
  intros Hq. destruct args as [error response]. unfold callbackLoose.
  destruct (looseNeqNull error || looseEqNull response);
    destruct q; cbn; congruence.
Qed.

Lemma callbackStrict_keeps (args : CallbackArgs A) (q : Settlement A) :
  q <> Pending -> callbackStrict args q = q.
Proof.
  intros Hq. destruct args as [error response]. unfold callbackStrict.
  destruct (strictNeqNull error || strictEqNull response);
    destruct q; cbn; congruence.
Qed.

(** With the loose comparisons the promise is rejected, with the error it
    was given, exactly when the transport reports an error or gives no
    response; otherwise it resolves with the response. *)
Lemma newPromise_loose (error : Nullable JsError) (response : Nullable A)
    (rest : list (CallbackArgs A)) :
  newPromise callbackLoose ((error, response) :: rest)
  = match error, response with
    | Value _, _ => Failed error
    | _, Value r => Fulfilled (Value r)
    | _, _ => Failed error
    end.
Proof.
  unfold newPromise. cbn [fold_left].
  rewrite settled_stays.
  - destruct error, response; reflexivity.
  - apply callbackLoose_keeps.
  - destruct error, response; discriminate.
Qed.

(** With the strict comparisons [undefined] is neither an absent error nor
    an absent response. *)
Lemma newPromise_strict (error : Nullable JsError) (response : Nullable A)
    (rest : list (CallbackArgs A)) :
  newPromise callbackStrict ((error, response) :: rest)
  = match error, response with
    | Null, Value r => Fulfilled (Value r)
    | Null, Undefined => Fulfilled Undefined
    | _, _ => Failed error
    end.
Proof.
  unfold newPromise. cbn [fold_left].
  rewrite settled_stays.
  - destruct error, response; reflexivity.
  - apply callbackStrict_keeps.
  - destruct error, response; discriminate.
Qed.

End GrpcCallbacks.

(** ** What one send does, for any backend and signer *)

Section SendRuns.
Import Legacy Legacy.XpringClientErrorMessages Legacy.SendPipeline.
Context {S : Type}.
Variable networkClient : NetworkClient S.
Variable signTransaction : Signer.
Variables (sender : Wallet.t) (amount : XRPAmount.t) (destination : string).

(** Every [send] is one of the runs of [SendRun]. *)
Lemma send_runs (w : World S Call) :
  exists t s' o,
    XpringClient.send networkClient signTransaction sender amount
      destination w
    = (mkWorld s' (calls w ++ t), o)
    /\ SendRun networkClient signTransaction sender amount destination
         (backend w) t s' o.
Proof.
  destruct (getFee networkClient GetFeeRequest.mk (backend w))
    as [s1 [fee | r]] eqn:Hfee.
  2:{ do 3 eexists. split; [apply (send_fee_rejected _ _ _ _ _ _ _ _ Hfee) |].
      eapply FeeRejected; eassumption. }
  destruct (Fee.getAmount fee) as [feeAmount |] eqn:Hamount.
  2:{ do 3 eexists.
      split; [apply (send_fee_malformed _ _ _ _ _ _ _ _ Hfee Hamount) |].
      eapply FeeMalformed; eassumption. }
  destruct (getAccountInfo networkClient (requestFor sender) s1)
    as [s2 [accountInfo | r]] eqn:Hinfo.
  2:{ do 3 eexists.
      split;
        [apply (send_account_rejected _ _ _ _ _ _ _ _ _ Hfee Hamount _ _ Hinfo)
        |].
      eapply AccountRejected; eassumption. }
  rewrite (send_account_fetched _ _ _ _ _ _ _ _ _ Hfee Hamount _ _ Hinfo).
  destruct (AccountInfo.getSequence accountInfo) as [sequence |] eqn:Hseq.
  2:{ do 3 eexists. split; [reflexivity |]. eapply AccountMalformed; eassumption. }
  cbv zeta.
  destruct (signTransaction
              (assemble sender amount feeAmount sequence destination) sender)
    as [[signedTransaction |] | thrown] eqn:Hsigned.
  - destruct (submitSignedTransaction networkClient
                (SubmitSignedTransactionRequest.mk signedTransaction) s2)
      as [s3 o] eqn:Hsubmit.
    do 3 eexists. split.
    + unfold record. cbn [backend calls]. rewrite <- !app_assoc.
      reflexivity.
    + eapply Submitted; eassumption.
  - do 3 eexists. split.
    + unfold record. cbn [backend calls]. rewrite <- !app_assoc.
      reflexivity.
    + eapply NotSigned; eauto.
  - do 3 eexists. split.
    + unfold record. cbn [backend calls]. rewrite <- !app_assoc.
      reflexivity.
    + eapply NotSigned; eauto.
Qed.

(** Whatever reaches the signer was assembled from the sender's address,
    the amount and the destination given to [send], and the fee and the
    sequence fetched by this very [send]; the signer is given the sender
    as wallet; and account info is asked for the sender alone, never for
    the destination. *)
Theorem send_signs_what_it_fetched (w : World S Call) :
  exists t,
    calls (fst (XpringClient.send networkClient signTransaction sender amount
                  destination w))
    = (calls w ++ t)%list
    /\ (forall request res,
          In (CallGetAccountInfo request res) t ->
          GetAccountInfoRequest.getAddress request = Wallet.getAddress sender)
    /\ (forall transaction wallet res,
          In (CallSignTransaction transaction wallet res) t ->
          wallet = sender
          /\ res = signTransaction transaction sender
          /\ Transaction.getAccount transaction = Wallet.getAddress sender
          /\ Transaction.getPayment transaction
             = Payment.mk amount destination
          /\ exists feeRequest fee accountInfo,
               In (CallGetFee feeRequest (Resolved fee)) t
               /\ Fee.getAmount fee = Some (Transaction.getFee transaction)
               /\ In (CallGetAccountInfo (requestFor sender)
                        (Resolved accountInfo)) t
               /\ AccountInfo.getSequence accountInfo
                  = Some (Transaction.getSequence transaction)).
Proof.
  destruct (send_runs w) as (t & s' & o & Hsend & Hrun).
  exists t. rewrite Hsend. split; [reflexivity |].
  destruct Hrun; cbn [In]; split;
    intros; repeat match goal with
                   | H : _ \/ _ |- _ => destruct H
                   | H : False |- _ => destruct H
                   | H : CallGetFee _ _ = _ |- _ => discriminate H
                   | H : CallGetAccountInfo _ _ = CallSignTransaction _ _ _
                     |- _ => discriminate H
                   | H : CallSignTransaction _ _ _ = CallGetAccountInfo _ _
                     |- _ => discriminate H
                   | H : CallSubmitSignedTransaction _ _ = _ |- _ =>
                       discriminate H
                   | H : CallGetAccountInfo _ _ = CallGetAccountInfo _ _
                     |- _ => injection H as <- <-
                   | H : CallSignTransaction _ _ _ = CallSignTransaction _ _ _
                     |- _ => injection H as <- <- <-
                   end;
    try reflexivity.
  all: split; [reflexivity |];
       split; [symmetry; assumption |];
       split; [reflexivity |];
       split; [reflexivity |];
       exists GetFeeRequest.mk, fee, accountInfo;
       subst transaction; cbn; repeat split; try assumption; auto.
Qed.

(** What is submitted is what the signer returned, unchanged, after the
    fee and the sequence were fetched; [submitSignedTransaction] is called
    on the backend as [getAccountInfo] left it, which was called on the
    backend as [getFee] left it; and [send] settles as the submission does:
    its response is returned as it is, its rejection passed on as it is. *)
Theorem send_submits_what_was_signed (w : World S Call) request res :
  In (CallSubmitSignedTransaction request res)
     (calls (fst (XpringClient.send networkClient signTransaction sender
                    amount destination w))) ->
  ~ In (CallSubmitSignedTransaction request res) (calls w) ->
  exists s1 fee feeAmount s2 accountInfo sequence signedTransaction s3,
    getFee networkClient GetFeeRequest.mk (backend w) = (s1, Resolved fee)
    /\ Fee.getAmount fee = Some feeAmount
    /\ getAccountInfo networkClient (requestFor sender) s1
       = (s2, Resolved accountInfo)
    /\ AccountInfo.getSequence accountInfo = Some sequence
    /\ signTransaction
         (assemble sender amount feeAmount sequence destination) sender
       = Returns (Some signedTransaction)
    /\ request = SubmitSignedTransactionRequest.mk signedTransaction
    /\ submitSignedTransaction networkClient request s2 = (s3, res)
    /\ XpringClient.send networkClient signTransaction sender amount
         destination w
       = (mkWorld s3
            (calls w ++
             [CallGetFee GetFeeRequest.mk (Resolved fee);
              CallGetAccountInfo (requestFor sender) (Resolved accountInfo);
              CallSignTransaction
                (assemble sender amount feeAmount sequence destination)
                sender (Returns (Some signedTransaction));
              CallSubmitSignedTransaction request res]),
          res).
Proof.
  intros Hin Hnew.
  destruct (send_runs w) as (t & s' & o & Hsend & Hrun).
  rewrite Hsend in Hin. cbn in Hin. apply in_app_or in Hin.
  destruct Hin as [Hin | Hin]; [contradiction |].
  destruct Hrun; cbn in Hin;
    repeat match goal with
           | H : _ \/ _ |- _ => destruct H
           | H : False |- _ => destruct H
           | H : _ = CallSubmitSignedTransaction _ _ |- _ =>
               try discriminate H; injection H as <- <-
           end.
  exists s1, fee, feeAmount, s2, accountInfo, sequence, signedTransaction, s3.
  repeat split; assumption.
Qed.

End SendRuns.

(** ** The operations of the gRPC clients *)

Section GrpcOperations.
Import Grpc.

Lemma newPromise_loose_settles {A} (invocations : list (CallbackArgs A)) :
  settledLoosely invocations (newPromise callbackLoose invocations).
Proof.
  destruct invocations as [| [error response] rest]; [reflexivity |].
  unfold CallbackArgs in *. rewrite newPromise_loose. unfold settledLoosely.
  destruct error, response; eauto 8.
Qed.

Lemma callbackStrict_says_null {A} (args : CallbackArgs A)
    (p : Settlement A) :
  saysNull args -> callbackStrict args p = callbackLoose args p.
Proof.
  destruct args as [error response]. intros [Herror Hresponse].
  cbn in Herror, Hresponse.
  destruct error, response; try reflexivity; congruence.
Qed.

Lemma fold_strict_says_null {A} (invocations : list (CallbackArgs A))
    (p : Settlement A) :
  Forall saysNull invocations ->
  fold_left (fun q args => callbackStrict args q) invocations p
  = fold_left (fun q args => callbackLoose args q) invocations p.
Proof.
  intros Hall. revert p.
  induction Hall as [| args rest Hargs _ IH]; intros p; cbn.
  - reflexivity.
  - rewrite (callbackStrict_says_null _ _ Hargs). apply IH.
Qed.

(** The four operations of [LegacyGRPCNetworkClient] that compare loosely
    keep the contract for every sequence of invocations of their callback:
    only the first invocation counts, a promise never resolves without a
    response, and it stays pending only if the transport never calls
    back. *)
Theorem legacy_grpc_operations_settle (this : LegacyGRPCNetworkClient.t) :
  let transport := LegacyGRPCNetworkClient.grpcClient this in
  (forall request,
     settledLoosely (XRPLedgerAPIClient.getAccountInfo transport request)
       (LegacyGRPCNetworkClient.getAccountInfo this request))
  /\ (forall request,
        settledLoosely (XRPLedgerAPIClient.getFee transport request)
          (LegacyGRPCNetworkClient.getFee this request))
  /\ (forall request,
        settledLoosely
          (XRPLedgerAPIClient.getLatestValidatedLedgerSequence transport
             request)
          (LegacyGRPCNetworkClient.getLatestValidatedLedgerSequence this
             request))
  /\ (forall request,
        settledLoosely
          (XRPLedgerAPIClient.getTransactionStatus transport request)
          (LegacyGRPCNetworkClient.getTransactionStatus this request)).
Proof.
  intros transport. repeat split; intros request;
    apply newPromise_loose_settles.
Qed.

(** Both operations of the first [GRPCNetworkClient] keep the same
    contract. *)
Theorem grpc_operations_settle
    (AccountInfoRequest AccountInfo InjectionRequest InjectionResponse : Type)
    (this : GRPCNetworkClient.t AccountInfoRequest AccountInfo
              InjectionRequest InjectionResponse) :
  let transport := GRPCNetworkClient.grpcClient _ _ _ _ this in
  (forall request,
     settledLoosely
       (GRPCNetworkClient.rippledGetAccountInfo _ _ _ _ transport request)
       (GRPCNetworkClient.getAccountInfo _ _ _ _ this request))
  /\ (forall request,
        settledLoosely
          (GRPCNetworkClient.rippledInject _ _ _ _ transport request)
          (GRPCNetworkClient.injectOperation _ _ _ _ this request)).
Proof.
  intros transport. split; intros request; apply newPromise_loose_settles.
Qed.

(** When the transport says [null], never [undefined], for an absent error
    or response, [submitSignedTransaction] settles as the operations that
    compare loosely do, and keeps their contract. *)
Theorem submitSignedTransaction_null_transport
    (this : LegacyGRPCNetworkClient.t)
    (request : Legacy.SubmitSignedTransactionRequest.t) :
  let invocations :=
    XRPLedgerAPIClient.submitSignedTransaction
      (LegacyGRPCNetworkClient.grpcClient this) request in
  Forall saysNull invocations ->
  LegacyGRPCNetworkClient.submitSignedTransaction this request
  = newPromise callbackLoose invocations
  /\ settledLoosely invocations
       (LegacyGRPCNetworkClient.submitSignedTransaction this request).
Proof.
  intros invocations Hall.
  assert (Hsame : LegacyGRPCNetworkClient.submitSignedTransaction this request
                  = newPromise callbackLoose invocations)
    by (unfold LegacyGRPCNetworkClient.submitSignedTransaction, newPromise;
        now apply fold_strict_says_null).
  split; [exact Hsame |]. rewrite Hsame. apply newPromise_loose_settles.
Qed.

(** For every sequence of invocations of its callback,
    [submitSignedTransaction] settles on the first one alone: it resolves
    with the response that came with a [null] error, be it [undefined], but
    never with [null]; it is rejected with the error that came first when
    that is anything but [null], [undefined] included, or when the response
    is [null]; it stays pending only if the transport never calls back. *)
Theorem submitSignedTransaction_settles (this : LegacyGRPCNetworkClient.t)
    (request : Legacy.SubmitSignedTransactionRequest.t) :
  settledStrictly
    (XRPLedgerAPIClient.submitSignedTransaction
       (LegacyGRPCNetworkClient.grpcClient this) request)
    (LegacyGRPCNetworkClient.submitSignedTransaction this request).
Proof.
  unfold LegacyGRPCNetworkClient.submitSignedTransaction.
  destruct (XRPLedgerAPIClient.submitSignedTransaction _ request)
    as [| [error response] rest]; [reflexivity |].
  unfold CallbackArgs in *. rewrite newPromise_strict.
  unfold settledStrictly.
  destruct error, response; eauto; try (eexists; split; eauto; discriminate);
    try (do 2 eexists; split; eauto; left; discriminate).
Qed.


(** The constructor of [LegacyGRPCNetworkClient] never fails for want of
    [xhr2]: when [require] throws, the global object is left as it was.
    When [require] returns the module, [XMLHttpRequest] is that module
    afterwards whatever it was before, so an implementation that was
    already there is replaced; constructing a second client changes nothing
    more.  The transport client is built from the URL in every case. *)
Theorem legacy_grpc_constructor_shim (Implementation : Type)
    (require : string -> JsError + Implementation)
    (newXRPLedgerAPIClient : string -> XRPLedgerAPIClient.t)
    (grpcURL otherURL : string) (before : option Implementation) :
  let construct := LegacyGRPCNetworkClient.new Implementation require
                     newXRPLedgerAPIClient in
  let after := fst (construct grpcURL before) in
  (forall thrown, require "xhr2" = inl thrown -> after = before)
  /\ (forall xhr2, require "xhr2" = inr xhr2 -> after = Some xhr2)
  /\ fst (construct otherURL after) = after
  /\ LegacyGRPCNetworkClient.grpcClient (snd (construct grpcURL before))
     = newXRPLedgerAPIClient grpcURL.
Proof.
  cbv zeta. unfold LegacyGRPCNetworkClient.new. cbn.
  destruct (require "xhr2") as [thrown | xhr2]; repeat split;
    intros; congruence.
Qed.

End GrpcOperations.


Lemma submitSignedTransaction_null_transport_witness :
  Forall Grpc.saysNull
    (Grpc.XRPLedgerAPIClient.submitSignedTransaction
       Fixtures.transportSayingNull
       (Legacy.SubmitSignedTransactionRequest.mk
          (Legacy.SignedTransaction.mk
             (Legacy.SendPipeline.assemble Fixtures.wallet Fixtures.oneDrop
                (Legacy.XRPAmount.ofDrops "10") 0 Fixtures.recipientAddress)
             "3045022100" "")))
  /\ Grpc.LegacyGRPCNetworkClient.submitSignedTransaction
       (Grpc.LegacyGRPCNetworkClient.mk Fixtures.transportSayingNull)
       (Legacy.SubmitSignedTransactionRequest.mk
          (Legacy.SignedTransaction.mk
             (Legacy.SendPipeline.assemble Fixtures.wallet Fixtures.oneDrop
                (Legacy.XRPAmount.ofDrops "10") 0 Fixtures.recipientAddress)
             "3045022100" ""))
     = Grpc.Fulfilled
         (Value Legacy.FakeLegacyNetworkClientResponses.defaultSubmitSignedTransactionResponse).
Proof.
  assert (Hall : Forall Grpc.saysNull
                   (Grpc.XRPLedgerAPIClient.submitSignedTransaction
                      Fixtures.transportSayingNull
                      (Legacy.SubmitSignedTransactionRequest.mk
                         (Legacy.SignedTransaction.mk
                            (Legacy.SendPipeline.assemble Fixtures.wallet
                               Fixtures.oneDrop
                               (Legacy.XRPAmount.ofDrops "10") 0
                               Fixtures.recipientAddress)
                            "3045022100" ""))))
    by (repeat constructor; discriminate).
  split; [exact Hall |].
  rewrite (proj1 (submitSignedTransaction_null_transport
                    (Grpc.LegacyGRPCNetworkClient.mk
                       Fixtures.transportSayingNull) _ Hall)).
  reflexivity.
Defined.

(** ** More on the legacy client *)

Section LegacyMore.
Import Legacy Legacy.XpringClientErrorMessages Legacy.SendPipeline.
Import Legacy.FakeLegacyNetworkClientResponses.
Context {S : Type}.

(** For any backend, [getBalance] makes exactly one call, a
    [getAccountInfo] for the address it was given, and leaves the backend
    as that call left it.  A rejection of the backend is passed on as it
    is, and a balance that is returned is the balance of the account info
    that the backend resolved with. *)
Theorem getBalance_one_call (networkClient : NetworkClient S)
    (address : string) (w : World S Call) :
  let request := GetAccountInfoRequest.mk address in
  let answer := getAccountInfo networkClient request (backend w) in
  let run := XpringClient.getBalance networkClient address w in
  fst run
  = mkWorld (fst answer)
      (calls w ++ [CallGetAccountInfo request (snd answer)])
  /\ (forall r, snd answer = Rejected r -> snd run = Rejected r)
  /\ (forall balance,
        snd run = Resolved balance ->
        exists accountInfo,
          snd answer = Resolved accountInfo
          /\ AccountInfo.getBalance accountInfo = Some balance).
Proof.
  cbv zeta.
  destruct (getAccountInfo networkClient (GetAccountInfoRequest.mk address)
              (backend w)) as [s1 [accountInfo | r]] eqn:Hinfo;
    unfold XpringClient.getBalance.
  - rewrite (andThen_resolved _ _ _ _ _ (getAccountInfo_run _ _ _ _ _ Hinfo)).
    cbv zeta.
    destruct (AccountInfo.getBalance accountInfo) as [balance |] eqn:Hb;
      cbn; repeat split; try discriminate.
    + intros b Hr. injection Hr as <-. now exists accountInfo.
  - rewrite (andThen_rejected _ _ _ _ _ (getAccountInfo_run _ _ _ _ _ Hinfo)).
    cbn. repeat split; try discriminate.
    intros r0 Hr. now injection Hr as ->.
Qed.

(** Over a fake, [send] resolves exactly when the fee slot holds a fee
    with an amount, the account info slot an account info with a sequence,
    the signer returns a signed transaction for the transaction assembled
    from them, and the submission slot holds a response; it then resolves
    with that response. *)
Theorem send_over_fake_resolves_iff
    (responses : FakeLegacyNetworkClientResponses.t)
    (signTransaction : Signer) (sender : Wallet.t) (amount : XRPAmount.t)
    (destination : string) (w : World S Call)
    (response : SubmitSignedTransactionResponse.t) :
  let networkClient : NetworkClient S :=
    FakeLegacyNetworkClient.client (FakeLegacyNetworkClient.mk responses) in
  snd (XpringClient.send networkClient signTransaction sender amount
         destination w)
  = Resolved response
  <-> exists fee feeAmount accountInfo sequence signedTransaction,
        getFeeResponse responses = Success fee
        /\ Fee.getAmount fee = Some feeAmount
        /\ getAccountInfoResponse responses = Success accountInfo
        /\ AccountInfo.getSequence accountInfo = Some sequence
        /\ signTransaction
             (assemble sender amount feeAmount sequence destination) sender
           = Returns (Some signedTransaction)
        /\ submitSignedTransactionResponse responses = Success response.
Proof.
  intros networkClient.
  destruct (send_runs networkClient signTransaction sender amount destination
              w) as (t & s' & o & Hsend & Hrun).
  rewrite Hsend. cbn [snd].
  destruct responses as [a f sub l st].
  split.
  - intros ->.
    inversion Hrun as
      [ | | | | s1 fee feeAmount s2 accountInfo sequence signed reason
              Hfee Hamount Hinfo Hseq transaction Hsigned Hfail
        | s1 fee feeAmount s2 accountInfo sequence signedTransaction s3 o'
              Hfee Hamount Hinfo Hseq transaction Hsigned request Hsubmit ];
      subst.
    exists fee, feeAmount, accountInfo, sequence, signedTransaction.
    cbn in Hfee, Hinfo, Hsubmit |- *.
    destruct f; [| discriminate Hfee]. injection Hfee as <- <-.
    destruct a; [| discriminate Hinfo]. injection Hinfo as <- <-.
    destruct sub; [| discriminate Hsubmit]. injection Hsubmit as <- <-.
    repeat split; assumption.
  - intros (fee & feeAmount & accountInfo & sequence & signedTransaction
            & Hf & Hamount & Ha & Hseq & Hsigned & Hsub).
    cbn in Hf, Ha, Hsub. subst f a sub.
    pose proof (send_account_fetched networkClient signTransaction sender
                  amount destination w (backend w) fee feeAmount eq_refl
                  Hamount (backend w) accountInfo eq_refl) as Hrun'.
    cbv zeta in Hrun'. rewrite Hseq, Hsigned, Hsend in Hrun'.
    cbn in Hrun'. now injection Hrun' as _ _ ->.
Qed.

End LegacyMore.

(** ** Calls are only ever added *)

Section AppendsCalls.
Context {S C : Type}.

Lemma appendsCalls_resolve {A} (a : A) : appendsCalls (S := S) (C := C) (resolve a).
Proof. intros [s cs]. cbn. now rewrite app_nil_r. Qed.

Lemma appendsCalls_reject {A} (r : Reason) :
  appendsCalls (S := S) (C := C) (A := A) (reject r).
Proof. intros [s cs]. cbn. now rewrite app_nil_r. Qed.

Lemma appendsCalls_rpc {Req Resp} (tag : Req -> Outcome Resp -> C)
    (op : Req -> S -> S * Outcome Resp) (req : Req) :
  appendsCalls (rpc tag op req).
Proof. intros [s cs]. unfold rpc. cbn. now destruct (op req s). Qed.

Lemma appendsCalls_andThen {A B} (p : Promise S C A)
    (f : A -> Promise S C B) :
  appendsCalls p -> (forall a, appendsCalls (f a)) ->
  appendsCalls (x <- p ;; f x).
Proof.
  intros Hp Hf [s cs]. cbn. unfold andThen.
  rewrite (Hp (mkWorld s cs)). cbn.
  destruct (p (mkWorld s [])) as [[s1 c1] [a | r]]; cbn.
  - rewrite (Hf a (mkWorld s1 (cs ++ c1))), (Hf a (mkWorld s1 c1)). cbn.
    now rewrite app_assoc.
  - reflexivity.
Qed.

End AppendsCalls.

Section FakeKeepsNothing.
Import Legacy Legacy.XpringClientErrorMessages Legacy.SendPipeline.
Import Legacy.FakeLegacyNetworkClientResponses.
Context {S : Type}.

Lemma send_appendsCalls (networkClient : NetworkClient S)
    (signTransaction : Signer) sender amount destination :
  appendsCalls
    (XpringClient.send networkClient signTransaction sender amount
       destination).
Proof.
  unfold XpringClient.send, XpringClient.getFee, XpringClient.getAccountInfo.
  apply appendsCalls_andThen.
  - apply appendsCalls_andThen; [apply appendsCalls_rpc |].
    intros fee. cbv zeta.
    destruct (Fee.getAmount fee);
      [apply appendsCalls_resolve | apply appendsCalls_reject].
  - intros feeAmount. apply appendsCalls_andThen; [apply appendsCalls_rpc |].
    intros accountInfo.
    destruct (AccountInfo.getSequence accountInfo) as [sequence |];
      [| apply appendsCalls_reject].
    cbv zeta. intros [s cs].
    destruct (signTransaction _ sender) as [[signedTransaction |] | thrown].
    + unfold record, rpc. cbn.
      destruct (submitSignedTransaction networkClient _ s). cbn.
      now rewrite <- app_assoc.
    + reflexivity.
    + reflexivity.
Qed.

Lemma fake_run_keeps_backend
    (responses : FakeLegacyNetworkClientResponses.t)
    (signTransaction : Signer) sender amount destination
    (s0 s' : S) t o :
  SendRun (FakeLegacyNetworkClient.client
             (FakeLegacyNetworkClient.mk responses))
    signTransaction sender amount destination s0 t s' o ->
  s' = s0 /\ t <> [].
Proof.
  destruct responses as [a f sub l st].
  intros Hrun. destruct Hrun; cbn in *;
    unfold FakeLegacyNetworkClient.getFee,
      FakeLegacyNetworkClient.getAccountInfo,
      FakeLegacyNetworkClient.submitSignedTransaction in *;
    cbn in *;
    repeat match goal with
           | H : match ?x with Success _ => _ | Failure _ => _ end = _
             |- _ => destruct x; cbn in H; inversion H; subst; clear H
           end;
    split; (reflexivity || discriminate).
Qed.

(** A fake keeps nothing between calls: a second [send] with the same
    arguments settles as the first did and makes the same calls again,
    after those of the first; the backend behind the fake is never
    touched.  Nothing is deduplicated. *)
Theorem send_over_fake_repeats
    (responses : FakeLegacyNetworkClientResponses.t)
    (signTransaction : Signer) (sender : Wallet.t) (amount : XRPAmount.t)
    (destination : string) (w : World S Call) :
  let networkClient : NetworkClient S :=
    FakeLegacyNetworkClient.client (FakeLegacyNetworkClient.mk responses) in
  let first :=
    XpringClient.send networkClient signTransaction sender amount
      destination w in
  let second :=
    XpringClient.send networkClient signTransaction sender amount
      destination (fst first) in
  snd second = snd first
  /\ backend (fst first) = backend w
  /\ backend (fst second) = backend w
  /\ exists t,
       t <> []
       /\ calls (fst first) = (calls w ++ t)%list
       /\ calls (fst second) = (calls w ++ t ++ t)%list.
Proof.
  intros networkClient first second.
  destruct (send_runs networkClient signTransaction sender amount destination
              w) as (t & s' & o & Hfirst & Hrun).
  destruct (fake_run_keeps_backend _ _ _ _ _ _ _ _ _ Hrun) as [-> Hsome].
  assert (Halone :
            XpringClient.send networkClient signTransaction sender amount
              destination (mkWorld (backend w) [])
            = (mkWorld (backend w) t, o)).
  { pose proof (send_appendsCalls networkClient signTransaction sender amount
                  destination w) as Hframe.
    cbv zeta in Hframe. rewrite Hfirst in Hframe.
    destruct (XpringClient.send networkClient signTransaction sender amount
                destination (mkWorld (backend w) [])) as [[s1 c1] o1].
    cbn in Hframe. injection Hframe as Hs Hc Ho.
    apply app_inv_head in Hc. now subst. }
  assert (Hsecond : second = (mkWorld (backend w) ((calls w ++ t) ++ t), o)).
  { unfold second, first. rewrite Hfirst. cbn [fst].
    rewrite (send_appendsCalls networkClient signTransaction sender amount
               destination (mkWorld (backend w) (calls w ++ t))).
    cbn [backend calls]. rewrite Halone. reflexivity. }
  unfold first in *. rewrite Hsecond, Hfirst. cbn.
  repeat split. exists t. repeat split; [exact Hsome |].
  now rewrite app_assoc.
Qed.

End FakeKeepsNothing.

(** The default responses and a signer that signs: the submission is in the
    calls, and it carries what the signer returned. *)
Lemma send_submits_what_was_signed_witness :
  let signedTransaction :=
    Legacy.SignedTransaction.mk
      (Legacy.SendPipeline.assemble Fixtures.wallet Fixtures.oneDrop
         (Legacy.XRPAmount.ofDrops "10") 0 Fixtures.recipientAddress)
      "3045022100" (Legacy.Wallet.getPublicKey Fixtures.wallet) in
  let request := Legacy.SubmitSignedTransactionRequest.mk signedTransaction in
  let res :=
    Resolved
      Legacy.FakeLegacyNetworkClientResponses.defaultSubmitSignedTransactionResponse
  in
  let client :=
    Fixtures.fake
      (Legacy.FakeLegacyNetworkClientResponses.defaultSuccessfulResponses
         (Some 0%Z)) in
  In (Legacy.CallSubmitSignedTransaction request res)
     (calls (fst (Legacy.XpringClient.send client Fixtures.signs
                    Fixtures.wallet Fixtures.oneDrop
                    Fixtures.recipientAddress Fixtures.start)))
  /\ exists signed,
       Fixtures.signs
         (Legacy.SendPipeline.assemble Fixtures.wallet Fixtures.oneDrop
            (Legacy.XRPAmount.ofDrops "10") 0 Fixtures.recipientAddress)
         Fixtures.wallet
       = Legacy.Returns (Some signed)
       /\ request = Legacy.SubmitSignedTransactionRequest.mk signed.
Proof.
  intros signedTransaction request res client.
  assert (Hin : In (Legacy.CallSubmitSignedTransaction request res)
                  (calls (fst (Legacy.XpringClient.send client Fixtures.signs
                                 Fixtures.wallet Fixtures.oneDrop
                                 Fixtures.recipientAddress Fixtures.start))))
    by (cbn; auto).
  split; [exact Hin |].
  destruct (send_submits_what_was_signed client Fixtures.signs
              Fixtures.wallet Fixtures.oneDrop Fixtures.recipientAddress
              Fixtures.start request res Hin (fun H => H))
    as (s1 & fee & feeAmount & s2 & accountInfo & sequence & signed & s3
        & Hfee & Hamount & Hinfo & Hseq & Hsigned & Hrequest & _).
  exists signed. split; [| exact Hrequest].
  cbn in Hfee, Hinfo. injection Hfee as _ <-. injection Hinfo as _ <-.
  cbn in Hamount, Hseq. injection Hamount as <-. injection Hseq as <-.
  exact Hsigned.
Defined.

(** ** More on DefaultXpringClient *)

(** Closes the cases of a run once the answer of the backend is known. *)
Ltac settle :=
  repeat split; try discriminate; intros;
  repeat match goal with
         | H : Resolved _ = Resolved _ |- _ => inversion H; subst; clear H
         | H : Rejected _ = Rejected _ |- _ => inversion H; subst; clear H
         end;
  try congruence; eauto 8.

Section DefaultMore.
Import Default Default.XpringClientErrorMessages.
Context {S : Type}.
Variable networkClient : NetworkClient S.
Variable isValidXAddress : string -> bool.
Variable BigInt : JsValue -> JsError + Z.
Variable w : World S Call.

(** For a valid address and any backend, [getBalance] makes exactly one
    call, a [getAccountInfo] for an account with that address.  A rejection
    of the backend is passed on as it is.  A balance that is returned is
    what [BigInt] makes of a truthy balance of the account data; what
    [BigInt] throws is what [getBalance] is rejected with; a response
    without account data is malformed. *)
Theorem default_getBalance_valid_address (address : string) :
  isValidXAddress address = true ->
  let request :=
    GetAccountInfoRequest.mk (Some (AccountAddress.mk address)) in
  let answer := getAccountInfo networkClient request (backend w) in
  let run :=
    DefaultXpringClient.getBalance networkClient isValidXAddress BigInt
      address w in
  fst run
  = mkWorld (fst answer)
      (calls w ++ [CallGetAccountInfo request (snd answer)])
  /\ (forall r, snd answer = Rejected r -> snd run = Rejected r)
  /\ (forall n,
        snd run = Resolved n ->
        exists response accountData,
          snd answer = Resolved response
          /\ GetAccountInfoResponse.getAccountData response = Some accountData
          /\ toBoolean (AccountRoot.getBalance accountData) = true
          /\ BigInt (AccountRoot.getBalance accountData) = inr n)
  /\ (forall response accountData thrown,
        snd answer = Resolved response ->
        GetAccountInfoResponse.getAccountData response = Some accountData ->
        toBoolean (AccountRoot.getBalance accountData) = true ->
        BigInt (AccountRoot.getBalance accountData) = inl thrown ->
        snd run = Rejected (Value thrown))
  /\ (forall response,
        snd answer = Resolved response ->
        GetAccountInfoResponse.getAccountData response = None ->
        snd run = Rejected (Value (mkError "Malformed Response."))).
Proof.
  intros Hvalid. cbv zeta.
  unfold DefaultXpringClient.getBalance. rewrite Hvalid. cbn [negb].
  cbn. unfold andThen, rpc.
  destruct (getAccountInfo networkClient _ (backend w))
    as [s1 [response | r]]; cbn; [| settle].
  destruct (GetAccountInfoResponse.getAccountData response)
    as [accountData |] eqn:Hdata; cbn; [| settle].
  destruct (toBoolean (AccountRoot.getBalance accountData)) eqn:Htruthy;
    cbn; [| settle].
  destruct (BigInt (AccountRoot.getBalance accountData)) as [thrown | n]
    eqn:Hbig; cbn; settle.
Qed.

(** For any backend, [getFee] makes exactly one call of [getFee].  A
    rejection of the backend is passed on as it is, and a fee that is
    returned is the minimum fee of the fee of the response. *)
Theorem default_getFee_one_call :
  let answer := getFee networkClient GetFeeRequest.mk (backend w) in
  let run := DefaultXpringClient.getFee networkClient w in
  fst run
  = mkWorld (fst answer) (calls w ++ [CallGetFee GetFeeRequest.mk (snd answer)])
  /\ (forall r, snd answer = Rejected r -> snd run = Rejected r)
  /\ (forall minimumFee,
        snd run = Resolved minimumFee ->
        exists response fee,
          snd answer = Resolved response
          /\ GetFeeResponse.getDrops response = Some fee
          /\ Fee.getMinimumFee fee = Some minimumFee).
Proof.
  cbv zeta. unfold DefaultXpringClient.getFee. cbn. unfold andThen, rpc.
  destruct (getFee networkClient _ (backend w)) as [s1 [response | r]];
    cbn; [| settle].
  destruct (GetFeeResponse.getDrops response) as [fee |] eqn:Hdrops;
    cbn; [| settle].
  destruct (Fee.getMinimumFee fee) as [minimumFee |] eqn:Hminimum; cbn;
    settle.
Qed.

End DefaultMore.

(** A valid address over a backend that reports a balance of 4000. *)
Lemma default_getBalance_valid_address_witness :
  Fixtures.onlyRecipientIsValid Fixtures.recipientAddress = true
  /\ Default.DefaultXpringClient.getBalance Fixtures.fundedClient
       Fixtures.onlyRecipientIsValid Fixtures.bigInt
       Fixtures.recipientAddress Fixtures.start
     = (mkWorld tt
          [Default.CallGetAccountInfo
             (Default.GetAccountInfoRequest.mk
                (Some (Default.AccountAddress.mk Fixtures.recipientAddress)))
             (Resolved (Default.GetAccountInfoResponse.mk
                          (Some (Default.AccountRoot.mk (JsNumber 4000)))))],
        Resolved 4000%Z).
Proof.
  split; [reflexivity |].
  pose proof (proj1 (default_getBalance_valid_address Fixtures.fundedClient
                       Fixtures.onlyRecipientIsValid Fixtures.bigInt
                       Fixtures.start Fixtures.recipientAddress eq_refl))
    as Hworld.
  apply injective_projections; [exact Hworld | reflexivity].
Defined.
